(** * Call progress analysis (app_cpa.c): a shallow embedding

    The development models [callProgress] and [load_config] of
    [src/app_cpa.c].  C [int] variables are integers of [Z]; the
    arithmetic of the function is an addition per frame and one division,
    and the statements below are about values that stay in the range of
    [int] (signed overflow is undefined in C and is not modelled).

    The channel and the DSP are external to the file.  Each turn of the
    [while] loop consumes one [event]: what [ast_waitfor] returned, what
    [ast_read] returned, and what the DSP reported
    ([ast_dsp_get_tstate], [ast_dsp_get_tcount]) once the frame had been
    handed to [ast_dsp_call_progress]. *)

From Stdlib Require Import ZArith NArith List String Ascii Bool Lia.
Import ListNotations.

Local Open Scope string_scope.
Local Open Scope list_scope.
Local Open Scope Z_scope.

(** ** Constants of the Asterisk headers *)

Module Dsp.
(** The [DSP_TONE_STATE_*] macros of [asterisk/dsp.h]. *)
Definition DSP_TONE_STATE_SILENCE  : Z := 0.
Definition DSP_TONE_STATE_RINGING  : Z := 1.
Definition DSP_TONE_STATE_DIALTONE : Z := 2.
Definition DSP_TONE_STATE_TALKING  : Z := 3.
Definition DSP_TONE_STATE_BUSY     : Z := 4.
Definition DSP_TONE_STATE_SPECIAL1 : Z := 5.
Definition DSP_TONE_STATE_SPECIAL2 : Z := 6.
Definition DSP_TONE_STATE_SPECIAL3 : Z := 7.
Definition DSP_TONE_STATE_HUNGUP   : Z := 8.

(** [DEFAULT_SAMPLES_PER_MS] of [asterisk/frame.h]: 8000 Hz / 1000. *)
Definition DEFAULT_SAMPLES_PER_MS : N := 8%N.
End Dsp.
Import Dsp.

(** [enum ast_frame_type] of [asterisk/frame.h]. *)
Inductive ast_frame_type : Type :=
| AST_FRAME_DTMF_END
| AST_FRAME_VOICE
| AST_FRAME_VIDEO
| AST_FRAME_CONTROL
| AST_FRAME_NULL
| AST_FRAME_IAX
| AST_FRAME_TEXT
| AST_FRAME_IMAGE
| AST_FRAME_HTML
| AST_FRAME_CNG
| AST_FRAME_MODEM
| AST_FRAME_DTMF_BEGIN
| AST_FRAME_BRIDGE_ACTION
| AST_FRAME_RTCP.

(** ** What the loop observes *)

(** A frame as the loop uses it: its type and
    [ast_codec_samples_count(f)], an unsigned count. *)
Record ast_frame : Type := mkFrame {
  frametype : ast_frame_type;
  samples   : N
}.

(** What the DSP answers after the frame went through
    [ast_dsp_call_progress]. *)
Record dsp_reading : Type := mkReading {
  dsp_tstate : Z;   (* ast_dsp_get_tstate(cpadsp) *)
  dsp_tcount : Z    (* ast_dsp_get_tcount(cpadsp) *)
}.

(** [ast_read]: [NULL], or a frame (with the DSP's answer for it). *)
Inductive read_result : Type :=
| ReadNull
| ReadFrame (f : ast_frame) (d : dsp_reading).

Record event : Type := mkEvent {
  waitfor : Z;          (* ast_waitfor(chan, 2 * maxWaitTimeForFrame) *)
  readres : read_result (* ast_read(chan), when the body is entered *)
}.

(** ** Local variables of [callProgress] *)

(** The values fixed before the loop starts. *)
Record params : Type := mkParams {
  maxWaitTimeForFrame : Z;
  silenceThreshold    : Z;
  totalAnalysisTime   : Z;
  THRESH_SILENCE      : Z;
  THRESH_RING         : Z;
  THRESH_TALK         : Z;
  THRESH_BUSY         : Z;
  THRESH_CONGESTION   : Z;
  THRESH_HANGUP       : Z
}.

(** The variables the loop assigns. *)
Record state : Type := mkState {
  res         : Z;
  framelength : Z;
  iTotalTime  : Z;
  toneState   : Z;
  lastTone    : Z;
  tcount      : Z;
  cpaStatus   : string
}.

Definition set_res (v : Z) (s : state) : state :=
  mkState v (framelength s) (iTotalTime s) (toneState s) (lastTone s)
          (tcount s) (cpaStatus s).

Definition set_cpaStatus (v : string) (s : state) : state :=
  mkState (res s) (framelength s) (iTotalTime s) (toneState s) (lastTone s)
          (tcount s) v.

Definition set_tcount (v : Z) (s : state) : state :=
  mkState (res s) (framelength s) (iTotalTime s) (toneState s) (lastTone s)
          v (cpaStatus s).

Definition set_lastTone (v : Z) (s : state) : state :=
  mkState (res s) (framelength s) (iTotalTime s) (toneState s) v
          (tcount s) (cpaStatus s).

Definition set_toneState (v : Z) (s : state) : state :=
  mkState (res s) (framelength s) (iTotalTime s) v (lastTone s)
          (tcount s) (cpaStatus s).

(** [framelength = ...; iTotalTime += framelength;] *)
Definition add_frame (fl : Z) (s : state) : state :=
  mkState (res s) fl (iTotalTime s + fl) (toneState s) (lastTone s)
          (tcount s) (cpaStatus s).

(** The initialisers at the top of [callProgress]. *)
Definition init_state : state :=
  mkState 0 0 0 0 0 0 "".

(** ** The loop body *)

(** How a turn of the loop ends: at the closing brace, or at a [break]. *)
Inductive flow : Type :=
| Continue (s : state)
| Break (s : state).

(** [f->frametype == AST_FRAME_VOICE || ... NULL || ... CNG] *)
Definition analysed (t : ast_frame_type) : bool :=
  match t with
  | AST_FRAME_VOICE | AST_FRAME_NULL | AST_FRAME_CNG => true
  | _ => false
  end.

(** The length in ms the loop charges for a frame. *)
Definition frame_ms (p : params) (f : ast_frame) : Z :=
  match frametype f with
  | AST_FRAME_VOICE => Z.of_N (samples f / DEFAULT_SAMPLES_PER_MS)
  | _ => 2 * maxWaitTimeForFrame p
  end.

(** A [case] that ends the analysis: [strcpy(cpaStatus, l); res = 1;]. *)
Definition verdict (l : string) (s : state) : state :=
  set_res 1 (set_cpaStatus l s).

(** [switch (toneState) { ... }] *)
Definition tone_switch (p : params) (s : state) : state :=
  let t := toneState s in
  if t =? DSP_TONE_STATE_RINGING then
    if tcount s =? THRESH_RING p then verdict "Ringing" s else s
  else if t =? DSP_TONE_STATE_SILENCE then
    if tcount s >? THRESH_SILENCE p then set_cpaStatus "Silence" s else s
  else if t =? DSP_TONE_STATE_BUSY then
    if tcount s =? THRESH_BUSY p then verdict "Busy" s else s
  else if t =? DSP_TONE_STATE_TALKING then
    if tcount s =? THRESH_TALK p then verdict "Talking" s else s
  else if t =? DSP_TONE_STATE_SPECIAL3 then
    if tcount s =? THRESH_CONGESTION p then verdict "Congestion" s else s
  else if t =? DSP_TONE_STATE_HUNGUP then
    if tcount s =? THRESH_HANGUP p then verdict "Hungup" s else s
  else s.

(** The tone bookkeeping that follows the time check. *)
Definition track_tone (p : params) (d : dsp_reading) (s : state) : flow :=
  let s1 := set_toneState (dsp_tstate d) s in
  if toneState s1 =? lastTone s1 then
    let s2 := tone_switch p (set_tcount (dsp_tcount d) s1) in
    if res s2 =? 1 then Break s2 else Continue s2
  else
    Continue (set_tcount 1 (set_lastTone (toneState s1) s1)).

(** The body of the [while], entered with [res] already assigned. *)
Definition loop_body (p : params) (s : state) (r : read_result) : flow :=
  match r with
  | ReadNull => Break (set_res 1 (set_cpaStatus "Hungup" s))
  | ReadFrame f d =>
      if analysed (frametype f) then
        let s1 := add_frame (frame_ms p f) s in
        if iTotalTime s1 >=? totalAnalysisTime p then
          Break (set_cpaStatus "Unknown" s1)
        else track_tone p d s1
      else Continue s
  end.

(** ** The loop *)

(** [Exited s]: the loop was left with the variables as in [s].
    [Waiting s]: the events ran out while the loop was still turning. *)
Inductive loop_result : Type :=
| Exited (s : state)
| Waiting (s : state).

Fixpoint loop (p : params) (s : state) (evs : list event) : loop_result :=
  match evs with
  | [] => Waiting s
  | e :: evs' =>
      let s0 := set_res (waitfor e) s in
      if res s0 >? -1 then
        match loop_body p s0 (readres e) with
        | Break s1 => Exited s1
        | Continue s1 => loop p s1 evs'
        end
      else Exited s0
  end.

(** [if (!res) strcpy(cpaStatus, "NOTSURE");] *)
Definition after_loop (s : state) : state :=
  if res s =? 0 then set_cpaStatus "NOTSURE" s else s.

(** The value the loop's exit state publishes as [CPASTATUS]. *)
Definition published (s : state) : string := cpaStatus (after_loop s).

(** ** Arguments and defaults *)

(** The file-level variables [dfltMaxWaitTimeForFrame],
    [dfltSilenceThreshold] and [dfltTotalAnalysisTime]. *)
Record globals : Type := mkGlobals {
  dfltMaxWaitTimeForFrame : Z;
  dfltSilenceThreshold    : Z;
  dfltTotalAnalysisTime   : Z
}.

(** Their initialisers. *)
Definition compiled_defaults : globals := mkGlobals 50 100 1000.

(** [atoi] of the C library, for numerals within the range of [int]:
    leading white space, an optional sign, then the longest run of
    decimal digits; 0 when there is none. *)
Definition isspace (c : ascii) : bool :=
  let n := nat_of_ascii c in
  ((n =? 32) || ((9 <=? n) && (n <=? 13)))%nat.

Definition digit_value (c : ascii) : option Z :=
  let n := nat_of_ascii c in
  if ((48 <=? n) && (n <=? 57))%nat then Some (Z.of_nat n - 48) else None.

Fixpoint skip_space (s : string) : string :=
  match s with
  | String c s' => if isspace c then skip_space s' else s
  | EmptyString => s
  end.

Fixpoint atoi_digits (acc : Z) (s : string) : Z :=
  match s with
  | String c s' =>
      match digit_value c with
      | Some d => atoi_digits (10 * acc + d) s'
      | None => acc
      end
  | EmptyString => acc
  end.

Definition atoi (s : string) : Z :=
  match skip_space s with
  | String "-" s' => - atoi_digits 0 s'
  | String "+" s' => atoi_digits 0 s'
  | s' => atoi_digits 0 s'
  end.

(** [ast_strlen_zero]: a [NULL] or an empty string. *)
Definition ast_strlen_zero (s : option string) : bool :=
  match s with
  | None => true
  | Some EmptyString => true
  | Some _ => false
  end.

(** [AST_DECLARE_APP_ARGS(args, ...)]: two slots, [NULL] when not given. *)
Record app_args : Type := mkArgs {
  argSilenceThreshold  : option string;
  argTotalAnalysisTime : option string
}.

(** The text before the first comma, and what follows that comma. *)
Fixpoint cut_comma (s : string) : string * option string :=
  match s with
  | EmptyString => (EmptyString, None)
  | String c s' =>
      if Ascii.eqb c "," then (EmptyString, Some s')
      else let (a, b) := cut_comma s' in (String c a, b)
  end.

(** [AST_STANDARD_APP_ARGS(args, parse)] with two slots, on a non-empty
    argument string free of quotes, backslashes, parentheses and brackets:
    the first slot gets the text up to the first comma, the second all
    that follows it (and stays [NULL] without a comma). Asterisk's macro
    does not split at a comma inside parentheses, brackets or quotes and
    removes quotes and backslashes; what is stated below about the values
    read from the arguments is stated for arguments that are [plain]. *)
Definition AST_STANDARD_APP_ARGS (parse : string) : app_args :=
  let (a, b) := cut_comma parse in mkArgs (Some a) b.

(** The part of [callProgress] before the channel is touched: the locals
    [maxWaitTimeForFrame], [silenceThreshold], [totalAnalysisTime] and the
    [THRESH_*] chunk counts. [silenceThreshold / 20] truncates as in C. *)
Definition call_params (g : globals) (data : string) : params :=
  let args :=
    if negb (ast_strlen_zero (Some data)) then AST_STANDARD_APP_ARGS data
    else mkArgs None None in
  let sil :=
    match argSilenceThreshold args with
    | Some a => if negb (ast_strlen_zero (Some a)) then atoi a
                else dfltSilenceThreshold g
    | None => dfltSilenceThreshold g
    end in
  let tot :=
    match argTotalAnalysisTime args with
    | Some a => if negb (ast_strlen_zero (Some a)) then atoi a
                else dfltTotalAnalysisTime g
    | None => dfltTotalAnalysisTime g
    end in
  let maxw :=
    if dfltMaxWaitTimeForFrame g >? tot then tot
    else dfltMaxWaitTimeForFrame g in
  mkParams maxw sil tot (Z.quot sil 20) 8 2 4 4 60.

(** ** [callProgress] *)

(** [GaveUp]: one of the two early [return]s, [CPASTATUS] set to the empty
    string. [Returned s]: the loop was left in [s] and the function ran to
    its end. [Running s]: still in the loop when the events ran out. *)
Inductive outcome : Type :=
| GaveUp
| Returned (s : state)
| Running (s : state).

(** [set_fmt] is what [ast_set_read_format(chan, ast_format_slin)] returns,
    [dsp_new] whether [ast_dsp_new()] returned a DSP. *)
Definition callProgress (g : globals) (data : string)
    (set_fmt : Z) (dsp_new : bool) (evs : list event) : outcome :=
  let p := call_params g data in
  if set_fmt <? 0 then GaveUp
  else if negb dsp_new then GaveUp
  else
    match loop p init_state evs with
    | Exited s => Returned s
    | Waiting s => Running s
    end.

(** The value given to [pbx_builtin_setvar_helper(chan, "CPASTATUS", _)],
    if the function got that far. *)
Definition CPASTATUS (o : outcome) : option string :=
  match o with
  | GaveUp => Some ""
  | Returned s => Some (published s)
  | Running _ => None
  end.

(** ** [load_config] *)

Definition tolower (c : ascii) : ascii :=
  let n := nat_of_ascii c in
  if ((65 <=? n) && (n <=? 90))%nat then ascii_of_nat (n + 32) else c.

(** [strcasecmp]: the difference at the first place where the two
    strings, lower-cased, disagree; 0 when they never do. *)
Fixpoint strcasecmp (a b : string) : Z :=
  match a, b with
  | EmptyString, EmptyString => 0
  | EmptyString, String c _ => - Z.of_nat (nat_of_ascii (tolower c))
  | String c _, EmptyString => Z.of_nat (nat_of_ascii (tolower c))
  | String c a', String d b' =>
      if Ascii.eqb (tolower c) (tolower d) then strcasecmp a' b'
      else Z.of_nat (nat_of_ascii (tolower c))
           - Z.of_nat (nat_of_ascii (tolower d))
  end.

Record ast_variable : Type := mkVar {
  var_name  : string;
  var_value : string
}.

Record ast_category : Type := mkCat {
  cat_name : string;
  cat_vars : list ast_variable
}.

(** What [ast_config_load("cpa.conf", config_flags)] returns. *)
Inductive ast_config : Type :=
| CONFIG_NULL
| CONFIG_STATUS_FILEUNCHANGED
| CONFIG_STATUS_FILEINVALID
| CONFIG_LOADED (cats : list ast_category).

(** [while (var) { ... var = var->next; }] *)
Fixpoint browse_vars (g : globals) (vars : list ast_variable) : globals :=
  match vars with
  | [] => g
  | v :: vars' =>
      let g' :=
        if strcasecmp (var_name v) "silence_threshold" =? 0 then
          mkGlobals (dfltMaxWaitTimeForFrame g) (atoi (var_value v))
                    (dfltTotalAnalysisTime g)
        else if strcasecmp (var_name v) "total_analysis_time" =? 0 then
          mkGlobals (dfltMaxWaitTimeForFrame g) (dfltSilenceThreshold g)
                    (atoi (var_value v))
        else g in
      browse_vars g' vars'
  end.

(** [while (cat) { ... cat = ast_category_browse(cfg, cat); }] *)
Fixpoint browse_cats (g : globals) (cats : list ast_category) : globals :=
  match cats with
  | [] => g
  | c :: cats' =>
      let g' :=
        if strcasecmp (cat_name c) "general" =? 0
        then browse_vars g (cat_vars c) else g in
      browse_cats g' cats'
  end.

(** [load_config]: the value returned and the file-level variables after
    the call. [dsp_silence] is what
    [ast_dsp_get_threshold_from_settings(THRESHOLD_SILENCE)] returns. *)
Definition load_config (g : globals) (dsp_silence : Z) (cfg : ast_config)
    : Z * globals :=
  let g0 := mkGlobals (dfltMaxWaitTimeForFrame g) dsp_silence
                      (dfltTotalAnalysisTime g) in
  match cfg with
  | CONFIG_NULL => (-1, g0)
  | CONFIG_STATUS_FILEUNCHANGED => (0, g0)
  | CONFIG_STATUS_FILEINVALID => (-1, g0)
  | CONFIG_LOADED cats => (0, browse_cats g0 cats)
  end.

(** ** The tone classifier, as a stand-in for the DSP *)

(** Modelled from the spec: the ToneClassifier of section 2, which is the
    Asterisk DSP and not part of the file. It "turns one audio chunk into
    a discrete tone class plus a run-length counter that resets to 1
    whenever the class changes and increments while the class repeats".
    A new DSP starts in tone state 0 with a count of 0. *)
Definition classify (d : dsp_reading) (class : Z) : dsp_reading :=
  if class =? dsp_tstate d then mkReading class (dsp_tcount d + 1)
  else mkReading class 1.

Definition new_dsp : dsp_reading := mkReading 0 0.

(** The events of a stream of voice frames of [n] samples each, the wait
    returning [w] every time, whose tone classes are [classes]. *)
Fixpoint chunks (d : dsp_reading) (w : Z) (n : N) (classes : list Z)
    : list event :=
  match classes with
  | [] => []
  | c :: cs =>
      let d' := classify d c in
      mkEvent w (ReadFrame (mkFrame AST_FRAME_VOICE n) d') :: chunks d' w n cs
  end.

(** * Properties *)

(** ** The loop, event by event *)

Ltac case_if :=
  match goal with
  | |- context [if ?b then _ else _] => destruct b eqn:?
  end.

Ltac to_Z :=
  repeat match goal with
         | H : (_ =? _) = true |- _ => apply Z.eqb_eq in H
         | H : (_ =? _) = false |- _ => apply Z.eqb_neq in H
         | H : (_ >? _) = true |- _ => apply Z.gtb_lt in H
         | H : (_ >? _) = false |- _ => rewrite Z.gtb_ltb, Z.ltb_ge in H
         | H : (_ >=? _) = true |- _ => rewrite Z.geb_leb, Z.leb_le in H
         | H : (_ >=? _) = false |- _ => rewrite Z.geb_leb, Z.leb_gt in H
         | H : (_ <? _) = true |- _ => apply Z.ltb_lt in H
         | H : (_ <? _) = false |- _ => apply Z.ltb_ge in H
         end.

Lemma loop_cons (p : params) (s : state) (e : event) (evs : list event) :
  loop p s (e :: evs) =
  if waitfor e >? -1 then
    match loop_body p (set_res (waitfor e) s) (readres e) with
    | Break s1 => Exited s1
    | Continue s1 => loop p s1 evs
    end
  else Exited (set_res (waitfor e) s).
Proof. reflexivity. Qed.

Lemma loop_app (p : params) (evs1 evs2 : list event) :
  forall s,
    loop p s (evs1 ++ evs2) =
    match loop p s evs1 with
    | Waiting s' => loop p s' evs2
    | Exited s' => Exited s'
    end.
Proof.
  induction evs1 as [|e evs1 IH]; intros s.
  - reflexivity.
  - rewrite <- app_comm_cons, !loop_cons.
    destruct (waitfor e >? -1); [|reflexivity].
    destruct (loop_body p (set_res (waitfor e) s) (readres e)); auto.
Qed.

(** A loop that was left was left at one event, after a stretch of events
    that kept it turning. *)
Lemma loop_left_split (p : params) (evs : list event) :
  forall s s',
    loop p s evs = Exited s' ->
    exists evs1 e evs2 s0,
      evs = evs1 ++ e :: evs2 /\
      loop p s evs1 = Waiting s0 /\
      loop p s0 [e] = Exited s'.
Proof.
  induction evs as [|e evs IH]; intros s s' H.
  - discriminate.
  - rewrite loop_cons in H.
    destruct (waitfor e >? -1) eqn:Hw.
    + destruct (loop_body p (set_res (waitfor e) s) (readres e))
        as [s1|s1] eqn:Hb.
      * destruct (IH _ _ H) as (evs1 & e' & evs2 & s0 & -> & H1 & H2).
        exists (e :: evs1), e', evs2, s0. repeat split; auto.
        rewrite loop_cons, Hw, Hb. exact H1.
      * exists [], e, evs, s. repeat split; auto.
        rewrite loop_cons, Hw, Hb. exact H.
    + exists [], e, evs, s. repeat split; auto.
      rewrite loop_cons, Hw. exact H.
Qed.

(** The labels a [case] of the switch stores together with [res = 1]. *)
Definition tone_labels : list string :=
  ["Ringing"; "Busy"; "Talking"; "Congestion"; "Hungup"].

(** While the loop turns, the only labels [cpaStatus] can hold are the
    initial empty string and the tentative "Silence". *)
Definition tentative (s : state) : Prop :=
  cpaStatus s = "" \/ cpaStatus s = "Silence".

(** The switch either stores a verdict and sets [res] to 1, or leaves
    [res] alone and at most stores "Silence". It touches nothing else. *)
Lemma tone_switch_effect (p : params) (s : state) :
  let s' := tone_switch p s in
  (iTotalTime s' = iTotalTime s /\ lastTone s' = lastTone s /\
   tcount s' = tcount s /\ toneState s' = toneState s /\
   framelength s' = framelength s) /\
  ((res s' = 1 /\ In (cpaStatus s') tone_labels) \/
   (res s' = res s /\
    (cpaStatus s' = cpaStatus s \/ cpaStatus s' = "Silence"))).
Proof.
  unfold tone_switch. repeat case_if; simpl; intuition.
Qed.

Lemma track_tone_continue (p : params) (d : dsp_reading) (s s' : state) :
  tentative s -> track_tone p d s = Continue s' -> tentative s'.
Proof.
  unfold track_tone, tentative. intros Hs H.
  destruct (toneState (set_toneState (dsp_tstate d) s)
            =? lastTone (set_toneState (dsp_tstate d) s)).
  - pose proof (tone_switch_effect p
      (set_tcount (dsp_tcount d) (set_toneState (dsp_tstate d) s)))
      as [_ He].
    cbv zeta in He.
    destruct (res (tone_switch p _) =? 1) eqn:Hr; [discriminate|].
    injection H as <-. to_Z.
    destruct He as [[He _]|[_ [He|He]]]; [contradiction| |auto].
    rewrite He. exact Hs.
  - injection H as <-. exact Hs.
Qed.

Lemma loop_body_continue (p : params) (s s' : state) (r : read_result) :
  tentative s -> loop_body p s r = Continue s' -> tentative s'.
Proof.
  intros Hs H. destruct r as [|f d]; simpl in H; [discriminate|].
  destruct (analysed (frametype f)).
  - destruct (_ >=? _); [discriminate|].
    eapply track_tone_continue; [|exact H]. exact Hs.
  - injection H as <-. exact Hs.
Qed.

Lemma loop_waiting_tentative (p : params) (evs : list event) :
  forall s s', tentative s -> loop p s evs = Waiting s' -> tentative s'.
Proof.
  induction evs as [|e evs IH]; intros s s' Hs H.
  - injection H as <-. exact Hs.
  - rewrite loop_cons in H.
    destruct (waitfor e >? -1); [|discriminate].
    destruct (loop_body p (set_res (waitfor e) s) (readres e))
      as [s1|s1] eqn:Hb; [|discriminate].
    apply (IH s1 s'); [|exact H].
    eapply loop_body_continue; [|exact Hb]. exact Hs.
Qed.

Lemma init_tentative : tentative init_state.
Proof. left; reflexivity. Qed.

(** The three ways the body breaks out of the loop: with a verdict (a
    tone's, or "Hungup" for a failed read) and [res = 1]; on the time
    budget, with "Unknown"; or, after the switch stored no verdict,
    because [res] was 1 already. *)
Lemma loop_body_break (p : params) (s s' : state) (r : read_result) :
  tentative s -> loop_body p s r = Break s' ->
  (res s' = 1 /\ In (cpaStatus s') tone_labels) \/
  (res s' = res s /\ cpaStatus s' = "Unknown") \/
  (res s = 1 /\ res s' = 1 /\ tentative s').
Proof.
  intros Hs H. destruct r as [|f d]; simpl in H.
  - injection H as <-. left. simpl. intuition.
  - destruct (analysed (frametype f)); [|discriminate].
    destruct (_ >=? _).
    + injection H as <-. right; left. split; reflexivity.
    + unfold track_tone in H.
      destruct (_ =? _) in H; [|discriminate].
      match type of H with
      | context [tone_switch p ?a] =>
          pose proof (tone_switch_effect p a) as [_ He]
      end.
      cbv zeta in He.
      destruct (res (tone_switch p _) =? 1) eqn:Hr; [|discriminate].
      injection H as <-. to_Z.
      destruct He as [[_ He]|[Hres He]]; [left; auto|].
      right; right. simpl in Hres. repeat split; try congruence.
      unfold tentative in *. destruct He as [He|He]; [|auto].
      rewrite He. exact Hs.
Qed.

(** ** Frames the analysis skips *)

(** C10: a frame whose type is not voice, null or comfort noise leaves
    every variable of the session as it was (elapsed time, last tone, run
    counter, status, [res]) and the loop goes on to its next turn, whatever
    the DSP would have reported. *)
Theorem other_frame_discarded
    (p : params) (s : state) (f : ast_frame) (d : dsp_reading) :
  analysed (frametype f) = false ->
  loop_body p s (ReadFrame f d) = Continue s.
Proof.
  intros H. unfold loop_body. rewrite H. reflexivity.
Qed.

Lemma other_frame_discarded_witness :
  let p := call_params compiled_defaults "" in
  let f := mkFrame AST_FRAME_CONTROL 0 in
  let d := mkReading DSP_TONE_STATE_RINGING 8 in
  analysed (frametype f) = false /\
  loop_body p (set_lastTone DSP_TONE_STATE_RINGING init_state) (ReadFrame f d)
  = Continue (set_lastTone DSP_TONE_STATE_RINGING init_state).
Proof.
  split; [reflexivity|].
  apply (other_frame_discarded (call_params compiled_defaults "")).
  reflexivity.
Defined.

(** ** A failed read *)

(** C5: when [ast_read] fails, at any point of the sampling and also as
    the very first event, the function leaves the loop and publishes
    "Hungup"; [res] is 1 as for a tone verdict, and the elapsed time is
    what it was (0 when it is the first event). *)
Theorem failed_read_is_hungup
    (g : globals) (data : string) (set_fmt : Z)
    (evs : list event) (s0 : state) (e : event) (rest : list event) :
  0 <= set_fmt ->
  loop (call_params g data) init_state evs = Waiting s0 ->
  -1 < waitfor e ->
  readres e = ReadNull ->
  exists s',
    callProgress g data set_fmt true (evs ++ e :: rest) = Returned s' /\
    CPASTATUS (Returned s') = Some "Hungup" /\
    res s' = 1 /\
    iTotalTime s' = iTotalTime s0 /\
    (evs = [] -> iTotalTime s' = 0).
Proof.
  intros Hfmt Hpre Hw Hr.
  exists (set_res 1 (set_cpaStatus "Hungup" (set_res (waitfor e) s0))).
  unfold callProgress.
  apply Z.ltb_ge in Hfmt. rewrite Hfmt. simpl negb. cbv iota.
  rewrite loop_app, Hpre, loop_cons, Hr.
  apply Z.gtb_lt in Hw. rewrite Hw. simpl.
  repeat split.
  intros ->. simpl in Hpre. injection Hpre as <-. reflexivity.
Qed.

Lemma failed_read_is_hungup_witness :
  let e := mkEvent 100 ReadNull in
  0 <= 0 /\
  loop (call_params compiled_defaults "") init_state [] = Waiting init_state /\
  -1 < waitfor e /\
  readres e = ReadNull /\
  exists s',
    callProgress compiled_defaults "" 0 true ([] ++ e :: []) = Returned s' /\
    CPASTATUS (Returned s') = Some "Hungup" /\
    res s' = 1 /\
    iTotalTime s' = iTotalTime init_state /\
    (@nil event = [] -> iTotalTime s' = 0).
Proof.
  repeat (split; [first [reflexivity | lia]|]).
  apply (failed_read_is_hungup compiled_defaults "" 0 [] init_state
           (mkEvent 100 ReadNull) []);
    first [reflexivity | lia].
Defined.

(** ** The time budget *)

(** The ten stalled waits that use up the default budget of 1000 ms: the
    wait returns 0 and the read hands back a null frame, charged
    [2 * maxWaitTimeForFrame] = 100 ms. *)
Definition stall : event :=
  mkEvent 0 (ReadFrame (mkFrame AST_FRAME_NULL 0) new_dsp).

(** C2, as stated, fails: when the budget runs out on a turn whose wait
    returned 0, the status published is "NOTSURE", not "Unknown". *)
Lemma budget_status_not_always_unknown :
  let o := callProgress compiled_defaults "" 0 true (repeat stall 10) in
  CPASTATUS o = Some "NOTSURE" /\ CPASTATUS o <> Some "Unknown" /\
  exists s, o = Returned s /\ iTotalTime s = 1000 /\ cpaStatus s = "Unknown".
Proof.
  vm_compute. split; [reflexivity|]. split; [discriminate|].
  eexists; split; [reflexivity|]. split; reflexivity.
Qed.

(** On an analysed frame the elapsed time grows by the length of the
    frame whichever way the turn ends. *)
Lemma loop_body_elapsed (p : params) (s s' : state) (f : ast_frame)
    (d : dsp_reading) :
  analysed (frametype f) = true ->
  loop_body p s (ReadFrame f d) = Continue s' \/
  loop_body p s (ReadFrame f d) = Break s' ->
  iTotalTime s' = iTotalTime s + frame_ms p f.
Proof.
  intros Ha H. unfold loop_body in H. rewrite Ha in H. cbv zeta in H.
  destruct (_ >=? _).
  - destruct H as [H|H]; [discriminate|]. injection H as <-. reflexivity.
  - unfold track_tone in H. cbv zeta in H.
    destruct (_ =? _) in H.
    + match type of H with
      | context [tone_switch p ?a] =>
          pose proof (tone_switch_effect p a) as [(He & _) _]
      end.
      cbv zeta in He.
      destruct (res (tone_switch p _) =? 1);
        destruct H as [H|H]; try discriminate;
        injection H as <-; rewrite He; reflexivity.
    + destruct H as [H|H]; [|discriminate]. injection H as <-. reflexivity.
Qed.

(** C2, amended: for a voice, null or comfort-noise frame the length of
    the frame is added to the elapsed time before the tone is looked at,
    and if the sum reaches the total analysis time the loop is left at
    once with "Unknown" stored, whatever tone state and count the DSP
    would have reported. The status published is "Unknown" when the wait
    of that turn returned a positive value and "NOTSURE" when it returned
    0. *)
Theorem budget_check_precedes_tone
    (p : params) (s : state) (e : event) (rest : list event)
    (f : ast_frame) (d : dsp_reading) :
  -1 < waitfor e ->
  readres e = ReadFrame f d ->
  analysed (frametype f) = true ->
  (forall s',
     loop_body p (set_res (waitfor e) s) (readres e) = Continue s' \/
     loop_body p (set_res (waitfor e) s) (readres e) = Break s' ->
     iTotalTime s' = iTotalTime s + frame_ms p f) /\
  (totalAnalysisTime p <= iTotalTime s + frame_ms p f ->
   exists s',
     loop p s (e :: rest) = Exited s' /\
     iTotalTime s' = iTotalTime s + frame_ms p f /\
     cpaStatus s' = "Unknown" /\
     lastTone s' = lastTone s /\ tcount s' = tcount s /\
     published s' = if waitfor e =? 0 then "NOTSURE" else "Unknown").
Proof.
  intros Hw Hr Ha. split.
  - intros s' H. rewrite Hr in H.
    apply (loop_body_elapsed p _ s' f d Ha) in H. exact H.
  - intros Ht.
    exists (set_cpaStatus "Unknown"
              (add_frame (frame_ms p f) (set_res (waitfor e) s))).
    rewrite loop_cons, Hr. apply Z.gtb_lt in Hw. rewrite Hw.
    unfold loop_body. rewrite Ha. cbv zeta.
    replace (iTotalTime (add_frame _ _) >=? totalAnalysisTime p) with true
      by (symmetry; rewrite Z.geb_leb; apply Z.leb_le; simpl; lia).
    repeat split.
    unfold published, after_loop. simpl.
    destruct (waitfor e =? 0); reflexivity.
Qed.

Lemma budget_check_precedes_tone_witness :
  let p := call_params compiled_defaults ",160" in
  let s := set_tcount 7 (set_lastTone DSP_TONE_STATE_RINGING
             (add_frame 140 init_state)) in
  let f := mkFrame AST_FRAME_VOICE 160 in
  let d := mkReading DSP_TONE_STATE_RINGING 8 in
  let e := mkEvent 80 (ReadFrame f d) in
  (-1 < waitfor e /\
   readres e = ReadFrame f d /\
   analysed (frametype f) = true /\
   totalAnalysisTime p <= iTotalTime s + frame_ms p f) /\
  exists s',
    loop p s (e :: []) = Exited s' /\
    iTotalTime s' = iTotalTime s + frame_ms p f /\
    cpaStatus s' = "Unknown" /\
    lastTone s' = lastTone s /\ tcount s' = tcount s /\
    published s' = if waitfor e =? 0 then "NOTSURE" else "Unknown".
Proof.
  cbv zeta.
  assert (Hw : -1 < 80) by lia.
  assert (Ht : totalAnalysisTime (call_params compiled_defaults ",160")
               <= iTotalTime
                    (set_tcount 7 (set_lastTone DSP_TONE_STATE_RINGING
                       (add_frame 140 init_state)))
                  + frame_ms (call_params compiled_defaults ",160")
                      (mkFrame AST_FRAME_VOICE 160))
    by (vm_compute; congruence).
  split; [repeat split; assumption|].
  apply (proj2 (budget_check_precedes_tone
           (call_params compiled_defaults ",160")
           (set_tcount 7 (set_lastTone DSP_TONE_STATE_RINGING
              (add_frame 140 init_state)))
           (mkEvent 80 (ReadFrame (mkFrame AST_FRAME_VOICE 160)
                          (mkReading DSP_TONE_STATE_RINGING 8)))
           []
           (mkFrame AST_FRAME_VOICE 160)
           (mkReading DSP_TONE_STATE_RINGING 8)
           Hw eq_refl eq_refl));
    exact Ht.
Defined.

(** ** A failed wait *)

(** C6, as stated, fails: a wait that fails before anything was heard
    publishes the empty string, neither "Unknown" nor "NOTSURE". *)
Lemma wait_failure_publishes_empty :
  let o := callProgress compiled_defaults "" 0 true [mkEvent (-1) ReadNull] in
  CPASTATUS o = Some "" /\
  CPASTATUS o <> Some "Unknown" /\ CPASTATUS o <> Some "NOTSURE".
Proof.
  vm_compute. repeat split; discriminate.
Qed.

(** C6, amended: when [ast_waitfor] returns a negative value the loop is
    left at once, at whatever point of the session, without a read and
    with the elapsed time as it was. No status is stored for it: what is
    published is the label recorded so far, the empty string or the
    tentative "Silence", never "Unknown" or "NOTSURE". *)
Theorem wait_failure_keeps_label
    (g : globals) (data : string) (set_fmt : Z)
    (evs : list event) (s0 : state) (e : event) (rest : list event) :
  0 <= set_fmt ->
  loop (call_params g data) init_state evs = Waiting s0 ->
  waitfor e <= -1 ->
  exists s',
    callProgress g data set_fmt true (evs ++ e :: rest) = Returned s' /\
    res s' = waitfor e /\
    iTotalTime s' = iTotalTime s0 /\
    CPASTATUS (Returned s') = Some (cpaStatus s0) /\
    (cpaStatus s0 = "" \/ cpaStatus s0 = "Silence").
Proof.
  intros Hfmt Hpre Hw.
  exists (set_res (waitfor e) s0).
  unfold callProgress.
  apply Z.ltb_ge in Hfmt. rewrite Hfmt. simpl negb. cbv iota.
  rewrite loop_app, Hpre, loop_cons.
  replace (waitfor e >? -1) with false
    by (symmetry; rewrite Z.gtb_ltb; apply Z.ltb_ge; lia).
  repeat split.
  - unfold CPASTATUS, published, after_loop. simpl.
    replace (waitfor e =? 0) with false
      by (symmetry; apply Z.eqb_neq; lia).
    reflexivity.
  - exact (loop_waiting_tentative _ _ _ _ init_tentative Hpre).
Qed.

(** Six chunks of silence: one more than the default silence threshold of
    100 / 20 = 5 chunks, so that "Silence" is stored. *)
Definition six_silent_chunks : list event :=
  chunks new_dsp 80 160 (repeat DSP_TONE_STATE_SILENCE 6).

Lemma wait_failure_keeps_label_witness :
  let e := mkEvent (-1) ReadNull in
  let s0 := mkState 80 20 120 0 0 6 "Silence" in
  0 <= 0 /\
  loop (call_params compiled_defaults "") init_state six_silent_chunks
    = Waiting s0 /\
  waitfor e <= -1 /\
  exists s',
    callProgress compiled_defaults "" 0 true (six_silent_chunks ++ e :: [])
      = Returned s' /\
    res s' = waitfor e /\
    iTotalTime s' = iTotalTime s0 /\
    CPASTATUS (Returned s') = Some (cpaStatus s0) /\
    (cpaStatus s0 = "" \/ cpaStatus s0 = "Silence").
Proof.
  cbv zeta.
  split; [lia|]. split; [vm_compute; reflexivity|].
  split; [vm_compute; congruence|].
  apply (wait_failure_keeps_label compiled_defaults "" 0 six_silent_chunks
           (mkState 80 20 120 0 0 6 "Silence") (mkEvent (-1) ReadNull) []).
  - lia.
  - vm_compute; reflexivity.
  - vm_compute; congruence.
Defined.

(** ** The empty status *)

(** A wait fails while nothing has been recorded yet. *)
Definition wait_failed_unlabelled (p : params) (evs : list event) : Prop :=
  exists evs1 e evs2 s0,
    evs = evs1 ++ e :: evs2 /\
    loop p init_state evs1 = Waiting s0 /\
    waitfor e <= -1 /\
    cpaStatus s0 = "".

(** What leaving the loop at an event publishes, when the wait of that
    turn did not return 1. *)
Lemma left_publishes_empty (p : params) (s s' : state) (e : event) :
  tentative s -> waitfor e <> 1 ->
  loop p s [e] = Exited s' ->
  (published s' = "" <-> waitfor e <= -1 /\ cpaStatus s = "").
Proof.
  intros Hs Hw1 H. rewrite loop_cons in H.
  destruct (waitfor e >? -1) eqn:Hw; to_Z.
  - destruct (loop_body p (set_res (waitfor e) s) (readres e))
      as [s1|s1] eqn:Hb; [discriminate|].
    injection H as <-.
    split; [|lia]. intros Hp. exfalso.
    apply loop_body_break in Hb; [|exact Hs].
    unfold published, after_loop in Hp.
    destruct Hb as [[Hr Hl]|[[Hr Hl]|[Hr _]]].
    + rewrite Hr in Hp. simpl in Hp, Hl. rewrite Hp in Hl.
      intuition discriminate.
    + destruct (res s1 =? 0); simpl in Hp; [discriminate|].
      rewrite Hl in Hp. discriminate.
    + simpl in Hr. contradiction.
  - injection H as <-. unfold published, after_loop. simpl.
    replace (waitfor e =? 0) with false
      by (symmetry; apply Z.eqb_neq; lia).
    intuition.
Qed.

(** C7, as stated, fails: with both preconditions met and three chunks
    analysed (60 ms), a failed wait publishes the empty string. *)
Lemma empty_status_without_failed_precondition :
  let evs := chunks new_dsp 80 160
               [DSP_TONE_STATE_SILENCE; DSP_TONE_STATE_RINGING;
                DSP_TONE_STATE_RINGING]
             ++ [mkEvent (-1) ReadNull] in
  exists s,
    callProgress compiled_defaults "" 0 true evs = Returned s /\
    iTotalTime s = 60 /\
    CPASTATUS (Returned s) = Some "".
Proof.
  vm_compute. eexists. repeat split.
Qed.

(** C7, amended: when the read format cannot be set or no DSP can be
    made, no event is consumed and [CPASTATUS] is set to the empty string.
    That is not the only way to the empty string: with both preconditions
    met it is also published when a wait fails before any label was
    recorded. Turns whose wait returns exactly 1 set aside, there is no
    third way: a failed read, the time budget and a tone verdict all
    publish a status that is not empty. *)
Theorem empty_status_paths
    (g : globals) (data : string) (set_fmt : Z) (dsp_new : bool)
    (evs : list event) :
  (set_fmt < 0 \/ dsp_new = false ->
   callProgress g data set_fmt dsp_new evs = GaveUp /\
   CPASTATUS GaveUp = Some "") /\
  (0 <= set_fmt -> dsp_new = true ->
   Forall (fun e => waitfor e <> 1) evs ->
   (CPASTATUS (callProgress g data set_fmt dsp_new evs) = Some "" <->
    wait_failed_unlabelled (call_params g data) evs)).
Proof.
  split.
  - intros H. split; [|reflexivity]. unfold callProgress.
    destruct H as [H| ->].
    + apply Z.ltb_lt in H. rewrite H. reflexivity.
    + destruct (set_fmt <? 0); reflexivity.
  - intros Hfmt -> Hall. unfold callProgress.
    apply Z.ltb_ge in Hfmt. rewrite Hfmt. simpl negb. cbv iota.
    set (p := call_params g data).
    split.
    + destruct (loop p init_state evs) as [s|s] eqn:Hl; [|discriminate].
      intros Hp. simpl in Hp. injection Hp as Hp.
      destruct (loop_left_split _ _ _ _ Hl)
        as (evs1 & e & evs2 & s0 & -> & H1 & H2).
      assert (Hw1 : waitfor e <> 1).
      { rewrite Forall_forall in Hall. apply Hall.
        apply in_or_app. right. left. reflexivity. }
      pose proof (loop_waiting_tentative _ _ _ _ init_tentative H1) as Ht.
      apply (left_publishes_empty p s0 s e Ht Hw1 H2) in Hp.
      exists evs1, e, evs2, s0. intuition.
    + intros (evs1 & e & evs2 & s0 & -> & H1 & Hw & Hs).
      rewrite loop_app, H1, loop_cons.
      replace (waitfor e >? -1) with false
        by (symmetry; rewrite Z.gtb_ltb; apply Z.ltb_ge; lia).
      unfold CPASTATUS, published, after_loop. simpl.
      replace (waitfor e =? 0) with false
        by (symmetry; apply Z.eqb_neq; lia).
      f_equal. exact Hs.
Qed.

Lemma empty_status_paths_witness :
  let evs := [mkEvent 80 (ReadFrame (mkFrame AST_FRAME_VOICE 160)
                            (mkReading DSP_TONE_STATE_RINGING 1));
              mkEvent (-1) ReadNull] in
  (0 <= 0 /\ true = true /\ Forall (fun e => waitfor e <> 1) evs) /\
  (CPASTATUS (callProgress compiled_defaults "" 0 true evs) = Some "" <->
   wait_failed_unlabelled (call_params compiled_defaults "") evs).
Proof.
  cbv zeta.
  assert (Hall : Forall (fun e => waitfor e <> 1)
            [mkEvent 80 (ReadFrame (mkFrame AST_FRAME_VOICE 160)
                           (mkReading DSP_TONE_STATE_RINGING 1));
             mkEvent (-1) ReadNull]).
  { repeat constructor; simpl; lia. }
  split; [repeat split; [lia | exact Hall]|].
  apply (proj2 (empty_status_paths compiled_defaults "" 0 true _));
    [lia | reflexivity | exact Hall].
Defined.

(** ** Tone verdicts *)

(** The five tone classes that end the analysis, with the [case] label,
    the threshold variable and the status string the switch gives each. *)
Inductive tone_class : Type :=
| Ringing | Busy | Congestion | Talking | HangupTone.

Definition class_state (c : tone_class) : Z :=
  match c with
  | Ringing => DSP_TONE_STATE_RINGING
  | Busy => DSP_TONE_STATE_BUSY
  | Congestion => DSP_TONE_STATE_SPECIAL3
  | Talking => DSP_TONE_STATE_TALKING
  | HangupTone => DSP_TONE_STATE_HUNGUP
  end.

Definition class_threshold (p : params) (c : tone_class) : Z :=
  match c with
  | Ringing => THRESH_RING p
  | Busy => THRESH_BUSY p
  | Congestion => THRESH_CONGESTION p
  | Talking => THRESH_TALK p
  | HangupTone => THRESH_HANGUP p
  end.

Definition class_label (c : tone_class) : string :=
  match c with
  | Ringing => "Ringing"
  | Busy => "Busy"
  | Congestion => "Congestion"
  | Talking => "Talking"
  | HangupTone => "Hungup"
  end.

(** The switch on a state whose tone is one of the five classes. *)
Lemma tone_switch_class (p : params) (s : state) (c : tone_class) :
  toneState s = class_state c ->
  tone_switch p s =
  if tcount s =? class_threshold p c then verdict (class_label c) s else s.
Proof.
  intros H. unfold tone_switch. rewrite H.
  destruct c; reflexivity.
Qed.

(** The bookkeeping of a turn that passes the time check. *)
Lemma loop_body_tone (p : params) (s : state) (f : ast_frame)
    (d : dsp_reading) :
  analysed (frametype f) = true ->
  iTotalTime s + frame_ms p f < totalAnalysisTime p ->
  loop_body p s (ReadFrame f d) = track_tone p d (add_frame (frame_ms p f) s).
Proof.
  intros Ha Ht. unfold loop_body. rewrite Ha. cbv zeta.
  replace (iTotalTime (add_frame _ _) >=? totalAnalysisTime p) with false
    by (symmetry; rewrite Z.geb_leb; apply Z.leb_gt; simpl; lia).
  reflexivity.
Qed.

(** C1: for each of the five classes, on a turn of a session that is
    still sampling, within the time budget, whose tone state repeats the
    last one, the verdict of the class is issued (the loop is left on that
    turn and the label of the class is published) exactly when the count
    the DSP reports equals the threshold of the class: not below it and
    not above it. *)
Theorem verdict_at_exact_threshold
    (p : params) (evs : list event) (s0 : state) (e : event)
    (f : ast_frame) (d : dsp_reading) (c : tone_class) :
  loop p init_state evs = Waiting s0 ->
  -1 < waitfor e ->
  readres e = ReadFrame f d ->
  analysed (frametype f) = true ->
  iTotalTime s0 + frame_ms p f < totalAnalysisTime p ->
  dsp_tstate d = class_state c ->
  lastTone s0 = class_state c ->
  (exists s', loop p init_state (evs ++ [e]) = Exited s' /\
              published s' = class_label c)
  <-> dsp_tcount d = class_threshold p c.
Proof.
  intros Hpre Hw Hr Ha Ht Hd Hl.
  pose proof (loop_waiting_tentative _ _ _ _ init_tentative Hpre) as Hten.
  rewrite loop_app, Hpre, loop_cons, Hr.
  apply Z.gtb_lt in Hw. rewrite Hw.
  rewrite loop_body_tone by (simpl; assumption).
  unfold track_tone. cbv zeta.
  replace (toneState _ =? lastTone _) with true
    by (symmetry; apply Z.eqb_eq; simpl; congruence).
  rewrite (tone_switch_class p _ c) by exact Hd.
  simpl tcount.
  destruct (dsp_tcount d =? class_threshold p c) eqn:Hc; to_Z.
  - split; [intros _; exact Hc|]. intros _.
    simpl. eexists. split; [reflexivity|]. reflexivity.
  - split; [|intros; contradiction].
    intros (s' & H & Hp). exfalso.
    simpl res in H.
    destruct (waitfor e =? 1) eqn:Hw1; [|discriminate].
    injection H as <-. to_Z.
    unfold published, after_loop in Hp. simpl in Hp. rewrite Hw1 in Hp.
    simpl in Hp. unfold tentative in Hten. rewrite Hp in Hten.
    destruct c; intuition discriminate.
Qed.

Lemma verdict_at_exact_threshold_witness :
  let p := call_params compiled_defaults "" in
  let evs := chunks new_dsp 80 160 (repeat DSP_TONE_STATE_BUSY 3) in
  let s0 := mkState 80 20 60 DSP_TONE_STATE_BUSY DSP_TONE_STATE_BUSY 3 "" in
  let f := mkFrame AST_FRAME_VOICE 160 in
  let d := mkReading DSP_TONE_STATE_BUSY 4 in
  let e := mkEvent 80 (ReadFrame f d) in
  (loop p init_state evs = Waiting s0 /\
   -1 < waitfor e /\
   readres e = ReadFrame f d /\
   analysed (frametype f) = true /\
   iTotalTime s0 + frame_ms p f < totalAnalysisTime p /\
   dsp_tstate d = class_state Busy /\
   lastTone s0 = class_state Busy) /\
  ((exists s', loop p init_state (evs ++ [e]) = Exited s' /\
               published s' = class_label Busy)
   <-> dsp_tcount d = class_threshold p Busy).
Proof.
  cbv zeta.
  split; [repeat split; vm_compute; congruence|].
  apply (verdict_at_exact_threshold
           (call_params compiled_defaults "")
           (chunks new_dsp 80 160 (repeat DSP_TONE_STATE_BUSY 3))
           (mkState 80 20 60 DSP_TONE_STATE_BUSY DSP_TONE_STATE_BUSY 3 "")
           (mkEvent 80 (ReadFrame (mkFrame AST_FRAME_VOICE 160)
                          (mkReading DSP_TONE_STATE_BUSY 4)))
           (mkFrame AST_FRAME_VOICE 160)
           (mkReading DSP_TONE_STATE_BUSY 4)
           Busy);
    vm_compute; congruence.
Defined.

(** ** Silence *)

(** On repeated silence the switch stores no verdict, so the loop goes on
    as long as the wait of the turn did not return 1. *)
Lemma silence_keeps_sampling (p : params) (s : state) (w : Z)
    (f : ast_frame) (d : dsp_reading) :
  w <> 1 ->
  analysed (frametype f) = true ->
  iTotalTime s + frame_ms p f < totalAnalysisTime p ->
  dsp_tstate d = DSP_TONE_STATE_SILENCE ->
  lastTone s = DSP_TONE_STATE_SILENCE ->
  exists s',
    loop_body p (set_res w s) (ReadFrame f d) = Continue s' /\
    tcount s' = dsp_tcount d /\
    cpaStatus s' =
      if dsp_tcount d >? THRESH_SILENCE p then "Silence" else cpaStatus s.
Proof.
  intros Hw1 Ha Ht Hd Hl.
  rewrite loop_body_tone by (simpl; assumption).
  unfold track_tone. cbv zeta.
  replace (toneState _ =? lastTone _) with true
    by (symmetry; apply Z.eqb_eq; simpl; congruence).
  unfold tone_switch. simpl toneState. rewrite Hd. simpl.
  apply Z.eqb_neq in Hw1.
  destruct (dsp_tcount d >? THRESH_SILENCE p); simpl; rewrite Hw1;
    eexists; repeat split.
Qed.

(** When the wait of the turn did return 1, the same turn leaves the
    loop, with whatever label is recorded by then. *)
Lemma silence_leaves_loop_after_wait_1 (p : params) (s : state)
    (f : ast_frame) (d : dsp_reading) :
  analysed (frametype f) = true ->
  iTotalTime s + frame_ms p f < totalAnalysisTime p ->
  dsp_tstate d = DSP_TONE_STATE_SILENCE ->
  lastTone s = DSP_TONE_STATE_SILENCE ->
  exists s',
    loop_body p (set_res 1 s) (ReadFrame f d) = Break s' /\
    published s' =
      if dsp_tcount d >? THRESH_SILENCE p then "Silence" else cpaStatus s.
Proof.
  intros Ha Ht Hd Hl.
  rewrite loop_body_tone by (simpl; assumption).
  unfold track_tone. cbv zeta.
  replace (toneState _ =? lastTone _) with true
    by (symmetry; apply Z.eqb_eq; simpl; congruence).
  unfold tone_switch. simpl toneState. rewrite Hd. simpl.
  destruct (dsp_tcount d >? THRESH_SILENCE p); simpl;
    eexists; repeat split.
Qed.

(** C3 fails on the code when [ast_waitfor] returns exactly 1 (one
    millisecond left of the wait): [res] then holds 1 when the switch is
    done, the test [res == 1] that was meant for the verdicts succeeds, and
    a turn on silence leaves the loop. As a first event this publishes the
    empty string; after a silence run above the threshold it publishes
    "Silence" as the final status. *)
Theorem silence_ends_loop_when_wait_returns_1 :
  let silent n := ReadFrame (mkFrame AST_FRAME_VOICE 160)
                            (mkReading DSP_TONE_STATE_SILENCE n) in
  callProgress compiled_defaults "" 0 true [mkEvent 1 (silent 1)]
    = Returned (mkState 1 20 20 0 0 1 "") /\
  CPASTATUS (callProgress compiled_defaults "" 0 true [mkEvent 1 (silent 1)])
    = Some "" /\
  callProgress compiled_defaults "" 0 true
      (six_silent_chunks ++ [mkEvent 1 (silent 7)])
    = Returned (mkState 1 20 140 0 0 7 "Silence") /\
  CPASTATUS (callProgress compiled_defaults "" 0 true
      (six_silent_chunks ++ [mkEvent 1 (silent 7)]))
    = Some "Silence".
Proof.
  vm_compute. repeat split.
Qed.

(** ** A change of tone *)

(** A turn on an analysed frame whose tone state differs from the last
    one, within the time budget. *)
Lemma loop_body_change (p : params) (s : state) (f : ast_frame)
    (d : dsp_reading) :
  analysed (frametype f) = true ->
  iTotalTime s + frame_ms p f < totalAnalysisTime p ->
  dsp_tstate d <> lastTone s ->
  loop_body p s (ReadFrame f d) =
  Continue (mkState (res s) (frame_ms p f) (iTotalTime s + frame_ms p f)
                    (dsp_tstate d) (dsp_tstate d) 1 (cpaStatus s)).
Proof.
  intros Ha Ht Hd.
  rewrite loop_body_tone by assumption.
  unfold track_tone. cbv zeta.
  replace (toneState _ =? lastTone _) with false
    by (symmetry; apply Z.eqb_neq; simpl; congruence).
  reflexivity.
Qed.

(** *** Streams of chunks *)

(** The length in ms charged for a voice frame of [n] samples. *)
Definition chunk_ms (n : N) : Z := Z.of_N (n / DEFAULT_SAMPLES_PER_MS).

Section Chunks.
Variable p : params.
Variable w : Z.
Variable n : N.
Hypothesis wait_ok : -1 < w.

Let fl : Z := chunk_ms n.

Lemma fl_nonneg : 0 <= fl.
Proof. apply N2Z.is_nonneg. Qed.

Lemma chunk_cons (s : state) (d : dsp_reading) (c : Z) (cs : list Z) :
  loop p s (chunks d w n (c :: cs)) =
  match loop_body p (set_res w s)
          (ReadFrame (mkFrame AST_FRAME_VOICE n) (classify d c)) with
  | Break s1 => Exited s1
  | Continue s1 => loop p s1 (chunks (classify d c) w n cs)
  end.
Proof.
  simpl chunks. rewrite loop_cons. simpl waitfor. simpl readres.
  apply Z.gtb_lt in wait_ok. rewrite wait_ok. reflexivity.
Qed.

Lemma classify_tstate (d : dsp_reading) (c : Z) :
  dsp_tstate (classify d c) = c.
Proof. unfold classify. destruct (c =? dsp_tstate d); reflexivity. Qed.

(** The first chunk of a new class only restarts the count. *)
Lemma chunk_change (s : state) (d : dsp_reading) (c : Z) (cs : list Z) :
  c <> lastTone s ->
  iTotalTime s + fl < totalAnalysisTime p ->
  loop p s (chunks d w n (c :: cs)) =
  loop p (mkState w fl (iTotalTime s + fl) c c 1 (cpaStatus s))
       (chunks (classify d c) w n cs).
Proof.
  intros Hc Ht. rewrite chunk_cons.
  rewrite loop_body_change; simpl; rewrite ?classify_tstate; auto.
Qed.

Hypothesis wait_not_1 : w <> 1.

(** A further chunk of the class of the run, short of its threshold. *)
Lemma chunk_repeat (s : state) (j : Z) (c : tone_class) (cs : list Z) :
  lastTone s = class_state c ->
  iTotalTime s + fl < totalAnalysisTime p ->
  j + 1 <> class_threshold p c ->
  loop p s (chunks (mkReading (class_state c) j) w n (class_state c :: cs)) =
  loop p (mkState w fl (iTotalTime s + fl) (class_state c) (class_state c)
                  (j + 1) (cpaStatus s))
       (chunks (mkReading (class_state c) (j + 1)) w n cs).
Proof.
  intros Hl Ht Hj. rewrite chunk_cons.
  rewrite loop_body_tone by (simpl; auto).
  unfold classify. simpl dsp_tstate. rewrite Z.eqb_refl. simpl dsp_tcount.
  unfold track_tone. cbv zeta.
  replace (toneState _ =? lastTone _) with true
    by (symmetry; apply Z.eqb_eq; simpl; congruence).
  rewrite (tone_switch_class p _ c) by reflexivity.
  simpl tcount. apply Z.eqb_neq in Hj. rewrite Hj.
  simpl res. apply Z.eqb_neq in wait_not_1. rewrite wait_not_1.
  apply (f_equal (fun x => loop p x _)).
  unfold set_tcount, set_toneState, add_frame, set_res. simpl.
  rewrite Hl. reflexivity.
Qed.

(** The chunk that brings the run to the threshold of its class. *)
Lemma chunk_fires (s : state) (j : Z) (c : tone_class) (cs : list Z) :
  lastTone s = class_state c ->
  iTotalTime s + fl < totalAnalysisTime p ->
  j + 1 = class_threshold p c ->
  exists s',
    loop p s (chunks (mkReading (class_state c) j) w n (class_state c :: cs))
      = Exited s' /\
    published s' = class_label c /\
    iTotalTime s' = iTotalTime s + fl.
Proof.
  intros Hl Ht Hj. rewrite chunk_cons.
  rewrite loop_body_tone by (simpl; auto).
  unfold classify. simpl dsp_tstate. rewrite Z.eqb_refl. simpl dsp_tcount.
  unfold track_tone. cbv zeta.
  replace (toneState _ =? lastTone _) with true
    by (symmetry; apply Z.eqb_eq; simpl; congruence).
  rewrite (tone_switch_class p _ c) by reflexivity.
  simpl tcount. apply Z.eqb_eq in Hj. rewrite Hj.
  simpl. eexists. repeat split.
Qed.

(** [m] further chunks of the class of the run, all short of the
    threshold: the loop keeps turning, and only the count and the
    elapsed time move. *)
Lemma chunks_below_threshold (c : tone_class) (rest : list Z) :
  forall (m : nat) (s : state) (j : Z),
    lastTone s = class_state c ->
    iTotalTime s + Z.of_nat m * fl < totalAnalysisTime p ->
    j + Z.of_nat m < class_threshold p c ->
    exists s',
      loop p s (chunks (mkReading (class_state c) j) w n
                  (repeat (class_state c) m ++ rest))
      = loop p s' (chunks (mkReading (class_state c) (j + Z.of_nat m))
                     w n rest) /\
      lastTone s' = class_state c /\
      cpaStatus s' = cpaStatus s /\
      iTotalTime s' = iTotalTime s + Z.of_nat m * fl.
Proof.
  pose proof fl_nonneg as Hfl.
  induction m as [|m IH]; intros s j Hl Ht Hj.
  - exists s. simpl repeat. simpl app.
    replace (j + Z.of_nat 0) with j by lia.
    repeat split; auto. lia.
  - simpl repeat. rewrite <- app_comm_cons.
    rewrite chunk_repeat by (auto; nia).
    edestruct (IH (mkState w fl (iTotalTime s + fl) (class_state c)
                     (class_state c) (j + 1) (cpaStatus s)) (j + 1))
      as (s' & H1 & H2 & H3 & H4).
    + reflexivity.
    + simpl. nia.
    + lia.
    + exists s'. rewrite H1.
      replace (j + 1 + Z.of_nat m) with (j + Z.of_nat (S m)) by lia.
      repeat split; auto. rewrite H4. simpl iTotalTime. nia.
Qed.
End Chunks.

(** *** Seven chunks of ringing, one of silence, ringing again *)

(** Voice frames of 160 samples (20 ms): seven classified as ringing, one
    as silence, then [k] as ringing. Every wait returns [w]. *)
Definition ringing_again (w : Z) (k : nat) : list event :=
  chunks new_dsp w 160
    (repeat DSP_TONE_STATE_RINGING 7 ++
     DSP_TONE_STATE_SILENCE :: repeat DSP_TONE_STATE_RINGING k).

(** Where the session stands when the silent chunk has been heard: 160 ms
    gone, nothing recorded, a count of 1. *)
Lemma ringing_again_prefix (w : Z) (rest : list Z) :
  -1 < w -> w <> 1 ->
  exists s,
    loop (call_params compiled_defaults "") init_state
      (chunks new_dsp w 160
         (repeat DSP_TONE_STATE_RINGING 7 ++ DSP_TONE_STATE_SILENCE :: rest))
    = loop (call_params compiled_defaults "") s
        (chunks (mkReading DSP_TONE_STATE_SILENCE 1) w 160 rest) /\
    s = mkState w 20 160 0 0 1 "".
Proof.
  intros Hw Hw1.
  change (repeat DSP_TONE_STATE_RINGING 7) with
    (DSP_TONE_STATE_RINGING :: repeat (class_state Ringing) 6).
  rewrite <- app_comm_cons.
  rewrite chunk_change by (auto; vm_compute; congruence).
  change (classify new_dsp DSP_TONE_STATE_RINGING)
    with (mkReading (class_state Ringing) 1).
  edestruct (chunks_below_threshold (call_params compiled_defaults "") w 160
               Hw Hw1 Ringing (DSP_TONE_STATE_SILENCE :: rest) 6)
    as (s2 & E & Hl & Hs & Ht); [| | | rewrite E; clear E].
  - reflexivity.
  - vm_compute; reflexivity.
  - vm_compute; reflexivity.
  - simpl in Hs, Ht.
    rewrite chunk_change; auto.
    + eexists. split; [reflexivity|].
      rewrite Hs, Ht. reflexivity.
    + rewrite Hl. discriminate.
    + rewrite Ht. vm_compute; reflexivity.
Qed.

Lemma ringing_again_short (w : Z) (k : nat) :
  -1 < w -> w <> 1 -> (k < 8)%nat ->
  exists s,
    loop (call_params compiled_defaults "") init_state (ringing_again w k)
      = Waiting s /\ cpaStatus s = "".
Proof.
  intros Hw Hw1 Hk. unfold ringing_again.
  destruct (ringing_again_prefix w (repeat DSP_TONE_STATE_RINGING k) Hw Hw1)
    as (s & -> & ->).
  destruct k as [|k].
  - eexists. split; reflexivity.
  - replace (repeat DSP_TONE_STATE_RINGING (S k)) with
      (DSP_TONE_STATE_RINGING :: repeat (class_state Ringing) k ++ [])
      by (rewrite app_nil_r; reflexivity).
    rewrite chunk_change by (auto; vm_compute; congruence).
    change (classify _ DSP_TONE_STATE_RINGING)
      with (mkReading (class_state Ringing) 1).
    edestruct (chunks_below_threshold (call_params compiled_defaults "") w 160
                 Hw Hw1 Ringing [] k)
      as (s2 & E & Hl & Hs & Ht); [| | | rewrite E; clear E].
    + reflexivity.
    + change (totalAnalysisTime _) with 1000. change (chunk_ms 160) with 20.
      simpl iTotalTime. lia.
    + change (class_threshold _ _) with 8. lia.
    + exists s2. split; [reflexivity | exact Hs].
Qed.

Lemma ringing_again_fires (w : Z) :
  -1 < w -> w <> 1 ->
  exists s,
    loop (call_params compiled_defaults "") init_state (ringing_again w 8)
      = Exited s /\ published s = "Ringing".
Proof.
  intros Hw Hw1. unfold ringing_again.
  destruct (ringing_again_prefix w (repeat DSP_TONE_STATE_RINGING 8) Hw Hw1)
    as (s & -> & ->).
  change (repeat DSP_TONE_STATE_RINGING 8) with
    (DSP_TONE_STATE_RINGING :: repeat (class_state Ringing) 6
       ++ [class_state Ringing]).
  rewrite chunk_change by (auto; vm_compute; congruence).
  change (classify _ DSP_TONE_STATE_RINGING)
    with (mkReading (class_state Ringing) 1).
  edestruct (chunks_below_threshold (call_params compiled_defaults "") w 160
               Hw Hw1 Ringing [class_state Ringing] 6)
    as (s2 & E & Hl & Hs & Ht); [| | | rewrite E; clear E].
  - reflexivity.
  - vm_compute; reflexivity.
  - vm_compute; reflexivity.
  - destruct (chunk_fires (call_params compiled_defaults "") w 160 Hw
                s2 (1 + Z.of_nat 6) Ringing [])
      as (s3 & H1 & H2 & _).
    + exact Hl.
    + rewrite Ht. vm_compute; reflexivity.
    + reflexivity.
    + exists s3. split; assumption.
Qed.

(** C4: a turn whose tone state differs from the last one (on an analysed
    frame, within the time budget) sets the run counter to 1 and the last
    tone to the new one, stores no status, leaves [res] alone and keeps the
    loop turning, whatever count the DSP reports: no threshold is looked
    at. With the default parameters and a classifier that counts as the
    specification says, after seven chunks of ringing and one of silence
    the chunks of ringing that follow are counted afresh: fewer than eight
    leave the session sampling with nothing recorded, and the eighth
    publishes "Ringing" (the waits returning a value other than 1);
    whatever the waits return, fewer than eight never publish "Ringing". *)
Theorem tone_change_restarts_run :
  (forall (p : params) (s : state) (f : ast_frame) (d : dsp_reading),
      analysed (frametype f) = true ->
      iTotalTime s + frame_ms p f < totalAnalysisTime p ->
      dsp_tstate d <> lastTone s ->
      loop_body p s (ReadFrame f d) =
      Continue (mkState (res s) (frame_ms p f) (iTotalTime s + frame_ms p f)
                        (dsp_tstate d) (dsp_tstate d) 1 (cpaStatus s))) /\
  (forall w : Z, -1 < w -> w <> 1 ->
     let run k := loop (call_params compiled_defaults "") init_state
                       (ringing_again w k) in
     (forall k, (k < 8)%nat -> exists s, run k = Waiting s /\ cpaStatus s = "")
     /\ (exists s, run 8%nat = Exited s /\ published s = "Ringing")) /\
  (forall (w : Z) (k : nat) (s : state), -1 < w -> (k < 8)%nat ->
     loop (call_params compiled_defaults "") init_state (ringing_again w k)
       = Exited s ->
     published s <> "Ringing").
Proof.
  split; [|split].
  - intros p s f d. apply loop_body_change.
  - intros w Hw Hw1. cbv zeta. split.
    + intros k Hk. apply ringing_again_short; assumption.
    + apply ringing_again_fires; assumption.
  - intros w k s Hw Hk H.
    destruct (Z.eq_dec w 1) as [->|Hw1].
    + unfold ringing_again in H. simpl repeat in H. simpl app in H.
      simpl chunks in H. rewrite !loop_cons in H. vm_compute in H.
      injection H as <-. vm_compute. discriminate.
    + destruct (ringing_again_short w k Hw Hw1 Hk) as (s' & E & _).
      congruence.
Qed.

Lemma tone_change_restarts_run_witness :
  let p := call_params compiled_defaults "" in
  let s := mkState 80 20 140 DSP_TONE_STATE_RINGING DSP_TONE_STATE_RINGING 7 "" in
  let f := mkFrame AST_FRAME_VOICE 160 in
  let d := mkReading DSP_TONE_STATE_SILENCE 12 in
  (analysed (frametype f) = true /\
   iTotalTime s + frame_ms p f < totalAnalysisTime p /\
   dsp_tstate d <> lastTone s /\
   loop_body p s (ReadFrame f d) =
   Continue (mkState 80 20 160 DSP_TONE_STATE_SILENCE DSP_TONE_STATE_SILENCE
               1 "")) /\
  (-1 < 80 /\ 80 <> 1 /\
   (exists s', loop p init_state (ringing_again 80 7) = Waiting s' /\
               cpaStatus s' = "") /\
   (exists s', loop p init_state (ringing_again 80 8) = Exited s' /\
               published s' = "Ringing")).
Proof.
  cbv zeta.
  pose proof tone_change_restarts_run as (Ha & Hb & _).
  split.
  - split; [reflexivity|]. split; [vm_compute; reflexivity|].
    split; [vm_compute; congruence|].
    apply (Ha (call_params compiled_defaults "")
              (mkState 80 20 140 DSP_TONE_STATE_RINGING
                 DSP_TONE_STATE_RINGING 7 "")
              (mkFrame AST_FRAME_VOICE 160)
              (mkReading DSP_TONE_STATE_SILENCE 12));
      [reflexivity | vm_compute; reflexivity | vm_compute; congruence].
  - split; [lia|]. split; [lia|].
    destruct (Hb 80 ltac:(lia) ltac:(lia)) as [H7 H8].
    split; [apply (H7 7%nat); lia | exact H8].
Defined.

(** ** Arguments, configuration and defaults *)

(** An argument that holds no comma. *)
Definition comma_free (a : string) : Prop := cut_comma a = (a, None).

(** The characters [AST_STANDARD_APP_ARGS] treats in a way of their own:
    the parentheses, the brackets, the double quote and the backslash
    (codes 40, 41, 91, 93, 34 and 92). *)
Definition special_char (c : ascii) : bool :=
  let n := nat_of_ascii c in
  ((n =? 40) || (n =? 41) || (n =? 91) || (n =? 93)
   || (n =? 34) || (n =? 92))%nat.

(** An argument with none of these characters: on such arguments the
    macro does what [AST_STANDARD_APP_ARGS] above does. *)
Fixpoint plain (a : string) : bool :=
  match a with
  | EmptyString => true
  | String c a' => negb (special_char c) && plain a'
  end.

Lemma cut_comma_app (a b : string) :
  comma_free a -> cut_comma (a ++ "," ++ b)%string = (a, Some b).
Proof.
  unfold comma_free. induction a as [|c a IH]; simpl; intros H.
  - reflexivity.
  - destruct (Ascii.eqb c ","); [discriminate|].
    destruct (cut_comma a) as [a1 b1].
    injection H as H1 H2. subst.
    specialize (IH eq_refl). simpl in IH. rewrite IH. reflexivity.
Qed.




(** Both arguments. *)
Lemma call_params_both (g : globals) (a b : string) :
  a <> "" -> comma_free a -> plain a = true ->
  b <> "" -> plain b = true ->
  silenceThreshold (call_params g (a ++ "," ++ b)%string) = atoi a /\
  totalAnalysisTime (call_params g (a ++ "," ++ b)%string) = atoi b.
Proof.
  intros Ha Hc _ Hb _. unfold call_params, AST_STANDARD_APP_ARGS.
  rewrite (cut_comma_app a b Hc).
  destruct a as [|c a]; [contradiction|].
  destruct b as [|c' b]; [contradiction|].
  split; reflexivity.
Qed.

Lemma call_params_chunks (g : globals) (data : string) :
  THRESH_SILENCE (call_params g data)
  = Z.quot (silenceThreshold (call_params g data)) 20.
Proof. reflexivity. Qed.

(** A [general] section that sets both options. *)
Definition general_section (vs vt : string) : ast_config :=
  CONFIG_LOADED
    [mkCat "general"
       [mkVar "silence_threshold" vs; mkVar "total_analysis_time" vt]].

Lemma load_config_general (g : globals) (dsp_silence : Z) (vs vt : string) :
  load_config g dsp_silence (general_section vs vt)
  = (0, mkGlobals (dfltMaxWaitTimeForFrame g) (atoi vs) (atoi vt)).
Proof. reflexivity. Qed.

(** A reload that finds cpa.conf unchanged reads nothing from it; the
    silence default is then the DSP's setting. *)
Lemma load_config_unchanged (g : globals) (dsp_silence : Z) :
  load_config g dsp_silence CONFIG_STATUS_FILEUNCHANGED
  = (0, mkGlobals (dfltMaxWaitTimeForFrame g) dsp_silence
                  (dfltTotalAnalysisTime g)).
Proof. reflexivity. Qed.

(** A value that does not start as a numeral reads as 0. *)
Lemma atoi_no_numeral (c : ascii) (s : string) :
  isspace c = false -> digit_value c = None ->
  c <> "-"%char -> c <> "+"%char ->
  atoi (String c s) = 0.
Proof.
  intros Hs Hd Hm Hp. unfold atoi. simpl skip_space. rewrite Hs.
  assert (E : atoi_digits 0 (String c s) = 0) by (simpl; rewrite Hd; reflexivity).
  destruct c as [[] [] [] [] [] [] [] []]; try exact E; congruence.
Qed.

(** C8, as stated, fails: the arguments "-40,0" are accepted, giving a
    silence threshold of -40 ms (-2 chunks) and a total analysis time of
    0; so are the values "abc" and "-7" of cpa.conf, read as 0 and -7;
    and the analysis is run with such values. *)
Lemma nonpositive_threshold_accepted :
  let p := call_params compiled_defaults "-40,0" in
  silenceThreshold p = -40 /\ THRESH_SILENCE p = -2 /\
  totalAnalysisTime p = 0 /\
  load_config compiled_defaults 256 (general_section "abc" "-7")
    = (0, mkGlobals 50 0 (-7)) /\
  CPASTATUS (callProgress compiled_defaults "-40" 0 true [mkEvent 80 ReadNull])
    = Some "Hungup".
Proof.
  vm_compute. repeat split.
Qed.

(** C8, amended: the values given as call arguments (arguments free of
    quotes, backslashes, parentheses and brackets) or in the [general]
    section of cpa.conf are read with [atoi] and taken as they are,
    whatever their sign; nothing checks them and nothing fails:
    [load_config] returns 0 and [callProgress] goes on to the analysis.
    The silence threshold in chunks is the value divided by 20, rounded
    towards 0. A value that does not start as a numeral is read as 0. *)
Theorem thresholds_taken_unchecked
    (g : globals) (dsp_silence : Z) (a b vs vt : string) :
  a <> "" -> comma_free a -> plain a = true ->
  b <> "" -> plain b = true ->
  let p := call_params g (a ++ "," ++ b)%string in
  (silenceThreshold p = atoi a /\
   totalAnalysisTime p = atoi b /\
   THRESH_SILENCE p = Z.quot (atoi a) 20) /\
  load_config g dsp_silence (general_section vs vt)
    = (0, mkGlobals (dfltMaxWaitTimeForFrame g) (atoi vs) (atoi vt)) /\
  (forall set_fmt evs, 0 <= set_fmt ->
     callProgress g (a ++ "," ++ b)%string set_fmt true evs <> GaveUp) /\
  (forall c s, isspace c = false -> digit_value c = None ->
     c <> "-"%char -> c <> "+"%char -> atoi (String c s) = 0).
Proof.
  intros Ha Hc Hpa Hb Hpb. cbv zeta.
  destruct (call_params_both g a b Ha Hc Hpa Hb Hpb) as [Hs Ht].
  repeat split.
  - exact Hs.
  - exact Ht.
  - rewrite call_params_chunks, Hs. reflexivity.
  - intros set_fmt evs Hf. unfold callProgress.
    apply Z.ltb_ge in Hf. rewrite Hf. simpl negb. cbv iota.
    destruct (loop _ _ _); discriminate.
  - apply atoi_no_numeral.
Qed.

Lemma thresholds_taken_unchecked_witness :
  let p := call_params compiled_defaults ("-40" ++ "," ++ "abc")%string in
  ("-40" <> "" /\ comma_free "-40" /\ plain "-40" = true /\
   "abc" <> "" /\ plain "abc" = true) /\
  (silenceThreshold p = -40 /\
   totalAnalysisTime p = 0 /\
   THRESH_SILENCE p = -2) /\
  load_config compiled_defaults 256 (general_section "0" "-7")
    = (0, mkGlobals 50 0 (-7)).
Proof.
  cbv zeta.
  assert (Ha : "-40" <> "") by discriminate.
  assert (Hc : comma_free "-40") by reflexivity.
  assert (Hpa : plain "-40" = true) by reflexivity.
  assert (Hb : "abc" <> "") by discriminate.
  assert (Hpb : plain "abc" = true) by reflexivity.
  split; [repeat split; assumption|].
  destruct (thresholds_taken_unchecked compiled_defaults 256
              "-40" "abc" "0" "-7" Ha Hc Hpa Hb Hpb) as (H1 & H2 & _).
  split; [exact H1 | exact H2].
Defined.


(** * Further properties of [callProgress] *)

(** ** How the loop can be left *)

(** All the strings [callProgress] can hand to [CPASTATUS]. *)
Definition all_statuses : list string :=
  [""; "Silence"; "Ringing"; "Busy"; "Talking"; "Congestion"; "Hungup";
   "Unknown"; "NOTSURE"].

Lemma loop_body_continue_budget (p : params) (s s' : state)
    (r : read_result) :
  iTotalTime s < totalAnalysisTime p ->
  loop_body p s r = Continue s' ->
  iTotalTime s' < totalAnalysisTime p.
Proof.
  intros Hs H. destruct r as [|f d]; [discriminate|].
  destruct (analysed (frametype f)) eqn:Ha.
  - rewrite (loop_body_elapsed p s s' f d Ha (or_introl H)).
    unfold loop_body in H. rewrite Ha in H. cbv zeta in H.
    destruct (_ >=? _) eqn:Hc; [discriminate|].
    to_Z. simpl in Hc. exact Hc.
  - unfold loop_body in H. rewrite Ha in H. injection H as <-. exact Hs.
Qed.

Lemma loop_waiting_budget (p : params) (evs : list event) :
  forall s s',
    iTotalTime s < totalAnalysisTime p ->
    loop p s evs = Waiting s' ->
    iTotalTime s' < totalAnalysisTime p.
Proof.
  induction evs as [|e evs IH]; intros s s' Hs H.
  - injection H as <-. exact Hs.
  - rewrite loop_cons in H.
    destruct (waitfor e >? -1); [|discriminate].
    destruct (loop_body p (set_res (waitfor e) s) (readres e))
      as [s1|s1] eqn:Hb; [|discriminate].
    apply (IH s1 s'); [|exact H].
    eapply loop_body_continue_budget; [|exact Hb]. exact Hs.
Qed.

(** A break of the body, with what it says about the time budget. *)
Lemma loop_body_break_time (p : params) (s s' : state) (r : read_result) :
  tentative s ->
  loop_body p s r = Break s' ->
  (res s' = 1 /\ In (cpaStatus s') tone_labels /\
   (iTotalTime s < totalAnalysisTime p ->
    iTotalTime s' < totalAnalysisTime p)) \/
  (res s' = res s /\ cpaStatus s' = "Unknown" /\
   totalAnalysisTime p <= iTotalTime s') \/
  (res s = 1 /\ res s' = 1 /\ tentative s' /\
   iTotalTime s' < totalAnalysisTime p).
Proof.
  intros Hten H.
  destruct r as [|f d].
  - simpl in H. injection H as <-. left. simpl. intuition.
  - unfold loop_body in H.
    destruct (analysed (frametype f)) eqn:Ha; [|discriminate].
    cbv zeta in H.
    destruct (_ >=? _) eqn:Hc.
    + injection H as <-. to_Z. right; left. simpl in *. intuition.
    + to_Z. simpl in Hc.
      unfold track_tone in H. cbv zeta in H.
      destruct (_ =? _) in H; [|discriminate].
      match type of H with
      | context [tone_switch p ?a] =>
          pose proof (tone_switch_effect p a) as [(Hit & _) He]
      end.
      cbv zeta in He, Hit. simpl in Hit.
      destruct (res (tone_switch p _) =? 1) eqn:Hr; [|discriminate].
      injection H as <-. to_Z.
      destruct He as [[_ He]|[Hres He]].
      * left. split; [exact Hr|]. split; [exact He|]. intros _. lia.
      * right; right. simpl in Hres.
        split; [congruence|]. split; [exact Hr|]. split; [|lia].
        unfold tentative in *. destruct He as [He|He]; [|auto].
        rewrite He. exact Hten.
Qed.

(** The four ways out of the loop: a failed wait; a verdict (a tone's, or
    "Hungup" for a failed read); the time budget; and a turn on a repeated
    tone whose wait had returned 1. *)
Inductive exit_kind (p : params) (s : state) : Prop :=
| exit_wait_failed :
    res s <= -1 -> tentative s -> exit_kind p s
| exit_verdict :
    res s = 1 -> In (cpaStatus s) tone_labels -> exit_kind p s
| exit_budget :
    0 <= res s -> cpaStatus s = "Unknown" ->
    totalAnalysisTime p <= iTotalTime s -> exit_kind p s
| exit_wait_was_1 :
    res s = 1 -> tentative s -> exit_kind p s.

Lemma loop_exit_kind (p : params) (evs : list event) (s : state) :
  loop p init_state evs = Exited s -> exit_kind p s.
Proof.
  intros H.
  destruct (loop_left_split _ _ _ _ H)
    as (evs1 & e & evs2 & s0 & _ & H1 & H2).
  pose proof (loop_waiting_tentative _ _ _ _ init_tentative H1) as Hten.
  rewrite loop_cons in H2.
  destruct (waitfor e >? -1) eqn:Hw; to_Z.
  - destruct (loop_body p (set_res (waitfor e) s0) (readres e))
      as [s1|s1] eqn:Hb; [discriminate|].
    injection H2 as <-.
    apply loop_body_break_time in Hb; [|exact Hten].
    destruct Hb as [(Hr & Hl & _)|[(Hr & Hl & Ht)|(_ & Hr & Hl & _)]].
    + apply exit_verdict; assumption.
    + apply exit_budget; auto. rewrite Hr. simpl. lia.
    + apply exit_wait_was_1; assumption.
  - injection H2 as <-. apply exit_wait_failed; simpl; auto.
Qed.

(** X1: whatever the arguments, the preconditions and the events, the
    value given to [CPASTATUS] is one of nine strings: the empty string,
    "Silence", "Ringing", "Busy", "Talking", "Congestion", "Hungup",
    "Unknown" or "NOTSURE". *)
Theorem status_is_one_of_nine
    (g : globals) (data : string) (set_fmt : Z) (dsp_new : bool)
    (evs : list event) (l : string) :
  CPASTATUS (callProgress g data set_fmt dsp_new evs) = Some l ->
  In l all_statuses.
Proof.
  unfold callProgress.
  destruct (set_fmt <? 0); [intros [= <-]; simpl; auto|].
  destruct (negb dsp_new); [intros [= <-]; simpl; auto|].
  destruct (loop _ _ _) as [s|s] eqn:Hl; [|discriminate].
  intros [= <-].
  apply loop_exit_kind in Hl. unfold published, after_loop.
  destruct Hl as [Hr Ht|Hr Hin|Hr Hu _|Hr Ht].
  - replace (res s =? 0) with false by (symmetry; apply Z.eqb_neq; lia).
    destruct Ht as [-> | ->]; simpl; auto.
  - rewrite Hr. simpl (1 =? 0). cbv iota.
    simpl in Hin. simpl. intuition.
  - destruct (res s =? 0); simpl; [|rewrite Hu]; intuition.
  - rewrite Hr. simpl (1 =? 0). cbv iota.
    destruct Ht as [-> | ->]; simpl; auto.
Qed.

Lemma status_is_one_of_nine_witness :
  let evs := six_silent_chunks
             ++ [mkEvent 0 (ReadFrame (mkFrame AST_FRAME_CNG 0) new_dsp)] in
  CPASTATUS (callProgress compiled_defaults ",200" 0 true evs)
    = Some "NOTSURE" /\
  In "NOTSURE" all_statuses.
Proof.
  cbv zeta.
  assert (H : CPASTATUS (callProgress compiled_defaults ",200" 0 true
                (six_silent_chunks
                 ++ [mkEvent 0 (ReadFrame (mkFrame AST_FRAME_CNG 0) new_dsp)]))
              = Some "NOTSURE") by (vm_compute; reflexivity).
  split; [exact H|].
  exact (status_is_one_of_nine compiled_defaults ",200" 0 true _ _ H).
Defined.

(** With a positive total analysis time, how a left loop stands to the
    budget: either it broke on the budget, or it is within it and holds a
    status other than "Unknown" and "NOTSURE", with [res] not 0. *)
Lemma loop_exit_time (p : params) (evs : list event) (s : state) :
  0 < totalAnalysisTime p ->
  loop p init_state evs = Exited s ->
  (cpaStatus s = "Unknown" /\ 0 <= res s /\
   totalAnalysisTime p <= iTotalTime s) \/
  (res s <> 0 /\ iTotalTime s < totalAnalysisTime p /\
   (tentative s \/ In (cpaStatus s) tone_labels)).
Proof.
  intros Hpos H.
  destruct (loop_left_split _ _ _ _ H)
    as (evs1 & e & evs2 & s0 & _ & H1 & H2).
  pose proof (loop_waiting_tentative _ _ _ _ init_tentative H1) as Hten.
  pose proof (loop_waiting_budget p evs1 init_state s0 Hpos H1) as Hbud.
  rewrite loop_cons in H2.
  destruct (waitfor e >? -1) eqn:Hw; to_Z.
  - destruct (loop_body p (set_res (waitfor e) s0) (readres e))
      as [s1|s1] eqn:Hb; [discriminate|].
    injection H2 as <-.
    apply loop_body_break_time in Hb; [|exact Hten].
    destruct Hb as [(Hr & Hl & Ht)|[(Hr & Hl & Ht)|(_ & Hr & Hl & Ht)]].
    + right. split; [lia|]. split; [apply Ht; exact Hbud | auto].
    + left. split; [exact Hl|]. split; [rewrite Hr; simpl; lia | exact Ht].
    + right. split; [lia|]. split; [exact Ht | auto].
  - injection H2 as <-. right. simpl. split; [lia|]. split; [exact Hbud|].
    left. exact Hten.
Qed.

(** X2: with a positive total analysis time, the loop is left with the
    elapsed time at or above the total analysis time exactly when the
    status published is "Unknown" or "NOTSURE"; and "NOTSURE" is published
    exactly when [res] is 0 on leaving the loop, which happens only on
    that exit, when the wait of the last turn returned 0. *)
Theorem undetermined_iff_budget
    (p : params) (evs : list event) (s : state) :
  0 < totalAnalysisTime p ->
  loop p init_state evs = Exited s ->
  (totalAnalysisTime p <= iTotalTime s <->
   published s = "Unknown" \/ published s = "NOTSURE") /\
  (published s = "NOTSURE" <-> res s = 0) /\
  (res s = 0 -> totalAnalysisTime p <= iTotalTime s).
Proof.
  intros Hpos H.
  destruct (loop_exit_time p evs s Hpos H)
    as [(Hu & Hr & Ht)|(Hr & Ht & Hl)];
    unfold published, after_loop.
  - destruct (res s =? 0) eqn:E; to_Z; simpl; rewrite ?Hu.
    + repeat split; auto.
    + repeat split; auto; try lia. intros; discriminate.
  - replace (res s =? 0) with false by (symmetry; apply Z.eqb_neq; lia).
    assert (Hn : cpaStatus s <> "Unknown" /\ cpaStatus s <> "NOTSURE").
    { destruct Hl as [[E|E]|Hin]; [rewrite E; split; discriminate ..|].
      simpl in Hin.
      destruct Hin as [E|[E|[E|[E|[E|[]]]]]]; rewrite <- E;
        split; discriminate. }
    destruct Hn as [Hn1 Hn2].
    repeat split; try lia; intros; try contradiction.
    destruct H0; contradiction.
Qed.

Lemma undetermined_iff_budget_witness :
  let p := call_params compiled_defaults "" in
  let evs := repeat stall 10 in
  let s := mkState 0 100 1000 0 0 0 "Unknown" in
  (0 < totalAnalysisTime p /\ loop p init_state evs = Exited s) /\
  (totalAnalysisTime p <= iTotalTime s <->
   published s = "Unknown" \/ published s = "NOTSURE") /\
  (published s = "NOTSURE" <-> res s = 0) /\
  (res s = 0 -> totalAnalysisTime p <= iTotalTime s).
Proof.
  cbv zeta.
  assert (Hp : 0 < totalAnalysisTime (call_params compiled_defaults ""))
    by (vm_compute; reflexivity).
  assert (Hl : loop (call_params compiled_defaults "") init_state
                 (repeat stall 10)
               = Exited (mkState 0 100 1000 0 0 0 "Unknown"))
    by (vm_compute; reflexivity).
  split; [split; assumption|].
  exact (undetermined_iff_budget _ _ _ Hp Hl).
Defined.

(** X3: once [callProgress] has returned, events that would come later do
    not matter: the outcome on a longer stream of events is the one
    already reached. *)
Theorem outcome_is_final
    (g : globals) (data : string) (set_fmt : Z) (dsp_new : bool)
    (evs more : list event) :
  CPASTATUS (callProgress g data set_fmt dsp_new evs) <> None ->
  callProgress g data set_fmt dsp_new (evs ++ more)
  = callProgress g data set_fmt dsp_new evs.
Proof.
  unfold callProgress.
  destruct (set_fmt <? 0); [reflexivity|].
  destruct (negb dsp_new); [reflexivity|].
  rewrite loop_app.
  destruct (loop _ _ evs) as [s|s]; [reflexivity|].
  intros H. exfalso. apply H. reflexivity.
Qed.

Lemma outcome_is_final_witness :
  let evs := [mkEvent 80 ReadNull] in
  let more := six_silent_chunks in
  CPASTATUS (callProgress compiled_defaults "" 0 true evs) <> None /\
  callProgress compiled_defaults "" 0 true (evs ++ more)
  = callProgress compiled_defaults "" 0 true evs.
Proof.
  cbv zeta.
  assert (H : CPASTATUS (callProgress compiled_defaults "" 0 true
                           [mkEvent 80 ReadNull]) <> None)
    by (vm_compute; discriminate).
  split; [exact H|].
  exact (outcome_is_final compiled_defaults "" 0 true
           [mkEvent 80 ReadNull] six_silent_chunks H).
Defined.

(** ** Elapsed time *)

(** What a turn adds to [iTotalTime]: the length of the frame if its type
    is analysed, nothing otherwise. *)
Definition charge (p : params) (e : event) : Z :=
  match readres e with
  | ReadFrame f _ => if analysed (frametype f) then frame_ms p f else 0
  | ReadNull => 0
  end.

Definition charged (p : params) (evs : list event) : Z :=
  fold_right (fun e acc => charge p e + acc) 0 evs.

Lemma loop_body_continue_charge (p : params) (s s' : state) (e : event) :
  loop_body p s (readres e) = Continue s' ->
  iTotalTime s' = iTotalTime s + charge p e.
Proof.
  intros H. unfold charge.
  destruct (readres e) as [|f d]; [discriminate|].
  destruct (analysed (frametype f)) eqn:Ha.
  - apply (loop_body_elapsed p s s' f d Ha). left. exact H.
  - unfold loop_body in H. rewrite Ha in H. injection H as <-. lia.
Qed.

Lemma loop_waiting_charged (p : params) (evs : list event) :
  forall s s',
    loop p s evs = Waiting s' ->
    iTotalTime s' = iTotalTime s + charged p evs.
Proof.
  induction evs as [|e evs IH]; intros s s' H.
  - injection H as <-. simpl. lia.
  - rewrite loop_cons in H.
    destruct (waitfor e >? -1); [|discriminate].
    destruct (loop_body p (set_res (waitfor e) s) (readres e))
      as [s1|s1] eqn:Hb; [|discriminate].
    rewrite (IH _ _ H).
    rewrite (loop_body_continue_charge _ _ _ _ Hb). simpl. lia.
Qed.

(** X4: as long as the loop keeps turning, the elapsed time is the time
    it started with plus the lengths of the voice, null and comfort-noise
    frames read since (other frames count for nothing), and, if it started
    below the total analysis time, it is still below it. *)
Theorem elapsed_is_charged
    (p : params) (s s' : state) (evs : list event) :
  loop p s evs = Waiting s' ->
  iTotalTime s' = iTotalTime s + charged p evs /\
  (iTotalTime s < totalAnalysisTime p ->
   iTotalTime s' < totalAnalysisTime p).
Proof.
  intros H. split.
  - exact (loop_waiting_charged p evs s s' H).
  - intros Hs. exact (loop_waiting_budget p evs s s' Hs H).
Qed.

(** Three voice frames of 20 ms with a DTMF frame and a null frame (100 ms
    with the default wait of 50 ms) among them. *)
Definition mixed_frames : list event :=
  [mkEvent 80 (ReadFrame (mkFrame AST_FRAME_VOICE 160)
                 (mkReading DSP_TONE_STATE_TALKING 1));
   mkEvent 70 (ReadFrame (mkFrame AST_FRAME_DTMF_BEGIN 0)
                 (mkReading DSP_TONE_STATE_TALKING 1));
   mkEvent 80 (ReadFrame (mkFrame AST_FRAME_VOICE 160)
                 (mkReading DSP_TONE_STATE_SILENCE 1));
   mkEvent 0  (ReadFrame (mkFrame AST_FRAME_NULL 0)
                 (mkReading DSP_TONE_STATE_SILENCE 1));
   mkEvent 80 (ReadFrame (mkFrame AST_FRAME_VOICE 160)
                 (mkReading DSP_TONE_STATE_RINGING 1))].

Lemma elapsed_is_charged_witness :
  let p := call_params compiled_defaults "" in
  let s' := mkState 80 20 160 DSP_TONE_STATE_RINGING DSP_TONE_STATE_RINGING
              1 "" in
  loop p init_state mixed_frames = Waiting s' /\
  iTotalTime s' = iTotalTime init_state + charged p mixed_frames /\
  (iTotalTime init_state < totalAnalysisTime p ->
   iTotalTime s' < totalAnalysisTime p).
Proof.
  cbv zeta.
  assert (H : loop (call_params compiled_defaults "") init_state mixed_frames
              = Waiting (mkState 80 20 160 DSP_TONE_STATE_RINGING
                           DSP_TONE_STATE_RINGING 1 ""))
    by (vm_compute; reflexivity).
  split; [exact H|].
  exact (elapsed_is_charged _ _ _ _ H).
Defined.

(** X5: the function returns once the budget is used up. With the read
    format set, a DSP at hand and a positive total analysis time, a stream
    of events whose analysed frames add up to the total analysis time or
    more makes [callProgress] return and publish a status: the loop cannot
    still be turning at the end of such a stream. *)
Theorem returns_when_budget_is_used_up
    (g : globals) (data : string) (set_fmt : Z) (evs : list event) :
  0 <= set_fmt ->
  0 < totalAnalysisTime (call_params g data) ->
  totalAnalysisTime (call_params g data) <= charged (call_params g data) evs ->
  exists s l,
    callProgress g data set_fmt true evs = Returned s /\
    CPASTATUS (callProgress g data set_fmt true evs) = Some l.
Proof.
  intros Hfmt Hpos Hch. unfold callProgress.
  apply Z.ltb_ge in Hfmt. rewrite Hfmt. simpl negb. cbv iota.
  destruct (loop (call_params g data) init_state evs) as [s|s] eqn:Hl.
  - exists s, (published s). split; reflexivity.
  - exfalso.
    pose proof (loop_waiting_charged _ _ _ _ Hl) as Ht.
    pose proof (loop_waiting_budget (call_params g data) evs init_state s
                  Hpos Hl) as Hb.
    simpl in Ht. lia.
Qed.

Lemma returns_when_budget_is_used_up_witness :
  let evs := repeat stall 12 in
  (0 <= 0 /\
   0 < totalAnalysisTime (call_params compiled_defaults "") /\
   totalAnalysisTime (call_params compiled_defaults "")
     <= charged (call_params compiled_defaults "") evs) /\
  exists s l,
    callProgress compiled_defaults "" 0 true evs = Returned s /\
    CPASTATUS (callProgress compiled_defaults "" 0 true evs) = Some l.
Proof.
  cbv zeta.
  assert (H0 : 0 <= 0) by lia.
  assert (H1 : 0 < totalAnalysisTime (call_params compiled_defaults ""))
    by (vm_compute; reflexivity).
  assert (H2 : totalAnalysisTime (call_params compiled_defaults "")
               <= charged (call_params compiled_defaults "")
                    (repeat stall 12))
    by (vm_compute; congruence).
  split; [repeat split; assumption|].
  exact (returns_when_budget_is_used_up compiled_defaults "" 0
           (repeat stall 12) H0 H1 H2).
Defined.

Lemma frame_ms_nonneg (p : params) (f : ast_frame) :
  0 <= maxWaitTimeForFrame p -> 0 <= frame_ms p f.
Proof.
  intros H. unfold frame_ms.
  destruct (frametype f); try lia. apply N2Z.is_nonneg.
Qed.

Lemma loop_body_monotone (p : params) (s s' : state) (r : read_result) :
  0 <= maxWaitTimeForFrame p ->
  loop_body p s r = Continue s' \/ loop_body p s r = Break s' ->
  iTotalTime s <= iTotalTime s'.
Proof.
  intros Hm H. destruct r as [|f d].
  - destruct H as [H|H]; [discriminate|]. simpl in H.
    injection H as <-. simpl. lia.
  - destruct (analysed (frametype f)) eqn:Ha.
    + rewrite (loop_body_elapsed p s s' f d Ha H).
      pose proof (frame_ms_nonneg p f Hm). lia.
    + unfold loop_body in H. rewrite Ha in H.
      destruct H as [H|H]; [|discriminate]. injection H as <-. lia.
Qed.

(** X6: when the wait per frame is not negative, the elapsed time never
    goes down, whether the loop is still turning or has been left. *)
Theorem elapsed_never_decreases
    (p : params) (evs : list event) (s s' : state) :
  0 <= maxWaitTimeForFrame p ->
  loop p s evs = Waiting s' \/ loop p s evs = Exited s' ->
  iTotalTime s <= iTotalTime s'.
Proof.
  intros Hm. revert s.
  induction evs as [|e evs IH]; intros s H.
  - destruct H as [H|H]; [|discriminate]. injection H as <-. lia.
  - rewrite loop_cons in H.
    destruct (waitfor e >? -1).
    + destruct (loop_body p (set_res (waitfor e) s) (readres e))
        as [s1|s1] eqn:Hb.
      * pose proof (loop_body_monotone p _ s1 _ Hm (or_introl Hb)) as H1.
        specialize (IH s1 H). simpl in H1. lia.
      * pose proof (loop_body_monotone p _ s1 _ Hm (or_intror Hb)) as H1.
        destruct H as [H|H]; [discriminate|]. injection H as <-.
        simpl in H1. exact H1.
    + destruct H as [H|H]; [discriminate|]. injection H as <-.
      simpl. lia.
Qed.

Lemma elapsed_never_decreases_witness :
  let p := call_params compiled_defaults "" in
  let s' := mkState 80 20 160 DSP_TONE_STATE_RINGING DSP_TONE_STATE_RINGING
              1 "" in
  (0 <= maxWaitTimeForFrame p /\
   (loop p init_state mixed_frames = Waiting s' \/
    loop p init_state mixed_frames = Exited s')) /\
  iTotalTime init_state <= iTotalTime s'.
Proof.
  cbv zeta.
  assert (Hm : 0 <= maxWaitTimeForFrame (call_params compiled_defaults ""))
    by (vm_compute; congruence).
  assert (H : loop (call_params compiled_defaults "") init_state mixed_frames
              = Waiting (mkState 80 20 160 DSP_TONE_STATE_RINGING
                           DSP_TONE_STATE_RINGING 1 ""))
    by (vm_compute; reflexivity).
  split; [split; [exact Hm | left; exact H]|].
  exact (elapsed_never_decreases _ _ _ _ Hm (or_introl H)).
Defined.

(** ** The last tone *)

(** The tone state of the latest analysed frame among [evs], [t0] if
    there is none. *)
Definition last_tone (t0 : Z) (evs : list event) : Z :=
  fold_left
    (fun t e =>
       match readres e with
       | ReadFrame f d => if analysed (frametype f) then dsp_tstate d else t
       | ReadNull => t
       end)
    evs t0.

Lemma track_tone_last (p : params) (d : dsp_reading) (s s' : state) :
  track_tone p d s = Continue s' ->
  lastTone s' = dsp_tstate d /\ toneState s' = dsp_tstate d.
Proof.
  unfold track_tone. cbv zeta. intros H.
  destruct (_ =? _) eqn:E in H.
  - match type of H with
    | context [tone_switch p ?a] =>
        pose proof (tone_switch_effect p a) as [(_ & Hl & _ & Ht & _) _]
    end.
    cbv zeta in Hl, Ht.
    destruct (res (tone_switch p _) =? 1); [discriminate|].
    injection H as <-. to_Z. simpl in E, Hl, Ht.
    rewrite Hl, Ht. split; congruence.
  - injection H as <-. split; reflexivity.
Qed.

(** X7: while the loop keeps turning, [lastTone] is the tone state the DSP
    reported for the latest voice, null or comfort-noise frame (frames of
    other types leave it alone), and [toneState] equals it as soon as one
    such frame was read. *)
Theorem last_tone_is_latest_reading
    (p : params) (evs : list event) (s s' : state) :
  loop p s evs = Waiting s' ->
  lastTone s' = last_tone (lastTone s) evs /\
  (toneState s = lastTone s -> toneState s' = lastTone s').
Proof.
  revert s. induction evs as [|e evs IH]; intros s H.
  - injection H as <-. split; auto.
  - rewrite loop_cons in H.
    destruct (waitfor e >? -1); [|discriminate].
    destruct (loop_body p (set_res (waitfor e) s) (readres e))
      as [s1|s1] eqn:Hb; [|discriminate].
    destruct (IH s1 H) as [IH1 IH2]. simpl last_tone.
    destruct (readres e) as [|f d]; [discriminate|].
    unfold loop_body in Hb.
    destruct (analysed (frametype f)).
    + cbv zeta in Hb. destruct (_ >=? _); [discriminate|].
      apply track_tone_last in Hb. destruct Hb as [Hl Ht].
      rewrite <- Hl. split; [exact IH1|].
      intros _. apply IH2. congruence.
    + injection Hb as <-. simpl in IH1, IH2. split; assumption.
Qed.

Lemma last_tone_is_latest_reading_witness :
  let p := call_params compiled_defaults "" in
  let s' := mkState 80 20 160 DSP_TONE_STATE_RINGING DSP_TONE_STATE_RINGING
              1 "" in
  loop p init_state mixed_frames = Waiting s' /\
  lastTone s' = last_tone (lastTone init_state) mixed_frames /\
  (toneState init_state = lastTone init_state -> toneState s' = lastTone s').
Proof.
  cbv zeta.
  assert (H : loop (call_params compiled_defaults "") init_state mixed_frames
              = Waiting (mkState 80 20 160 DSP_TONE_STATE_RINGING
                           DSP_TONE_STATE_RINGING 1 ""))
    by (vm_compute; reflexivity).
  split; [exact H|].
  exact (last_tone_is_latest_reading _ _ _ _ H).
Defined.

(** ** The tentative "Silence" *)

(** An analysed frame for which the DSP reports silence with a count above
    the silence threshold. *)
Definition over_silence (p : params) (e : event) : bool :=
  match readres e with
  | ReadFrame f d =>
      analysed (frametype f)
      && (dsp_tstate d =? DSP_TONE_STATE_SILENCE)
      && (dsp_tcount d >? THRESH_SILENCE p)
  | ReadNull => false
  end.

(** When the switch stores no verdict, the status is as before, or is
    "Silence" for a silence above its threshold. *)
Lemma tone_switch_quiet (p : params) (s : state) :
  res (tone_switch p s) <> 1 ->
  cpaStatus (tone_switch p s) = cpaStatus s \/
  (cpaStatus (tone_switch p s) = "Silence" /\
   toneState s = DSP_TONE_STATE_SILENCE /\
   THRESH_SILENCE p < tcount s).
Proof.
  unfold tone_switch. cbv zeta.
  repeat case_if; simpl; intros H; auto; to_Z;
    first [contradiction | right; repeat split; assumption].
Qed.

Lemma loop_body_status (p : params) (s s' : state) (e : event) :
  loop_body p s (readres e) = Continue s' ->
  cpaStatus s' = cpaStatus s \/
  (cpaStatus s' = "Silence" /\ over_silence p e = true).
Proof.
  intros H. unfold over_silence.
  destruct (readres e) as [|f d]; [discriminate|].
  unfold loop_body in H.
  destruct (analysed (frametype f)).
  - cbv zeta in H. destruct (_ >=? _); [discriminate|].
    unfold track_tone in H. cbv zeta in H.
    destruct (_ =? _) in H.
    + destruct (res (tone_switch p _) =? 1) eqn:Hr; [discriminate|].
      injection H as <-. to_Z.
      apply tone_switch_quiet in Hr. simpl in Hr.
      destruct Hr as [Hr|(Hr & Ht & Hc)]; [left; exact Hr|].
      right. split; [exact Hr|]. simpl.
      apply Z.eqb_eq in Ht. apply Z.gtb_lt in Hc. rewrite Ht, Hc.
      reflexivity.
    + injection H as <-. left. reflexivity.
  - injection H as <-. left. reflexivity.
Qed.

(** X8: the tentative "Silence" sticks and is earned. While the loop keeps
    turning, a status of "Silence" is not taken back, whatever tones come
    later; and starting from the empty status it appears only if one of the
    frames read was an analysed frame for which the DSP reported silence
    with a count above the silence threshold. *)
Theorem silence_sticks_and_is_earned
    (p : params) (evs : list event) (s s' : state) :
  loop p s evs = Waiting s' ->
  (cpaStatus s = "Silence" -> cpaStatus s' = "Silence") /\
  (cpaStatus s = "" -> cpaStatus s' = "Silence" ->
   existsb (over_silence p) evs = true).
Proof.
  revert s. induction evs as [|e evs IH]; intros s H.
  - injection H as <-. split; [auto|]. intros E1 E2. congruence.
  - rewrite loop_cons in H.
    destruct (waitfor e >? -1); [|discriminate].
    destruct (loop_body p (set_res (waitfor e) s) (readres e))
      as [s1|s1] eqn:Hb; [|discriminate].
    destruct (IH s1 H) as [IH1 IH2].
    apply loop_body_status in Hb. simpl in Hb. split.
    + intros E. apply IH1. destruct Hb as [Hb|[Hb _]]; congruence.
    + intros E1 E2. simpl existsb.
      destruct Hb as [Hb|[_ Hb]].
      * rewrite IH2; [apply orb_true_r | congruence | exact E2].
      * rewrite Hb. reflexivity.
Qed.

Lemma silence_sticks_and_is_earned_witness :
  let p := call_params compiled_defaults "" in
  let evs := six_silent_chunks ++ mixed_frames in
  let s' := mkState 80 20 280 DSP_TONE_STATE_RINGING DSP_TONE_STATE_RINGING
              1 "Silence" in
  (loop p init_state evs = Waiting s' /\
   cpaStatus init_state = "" /\ cpaStatus s' = "Silence") /\
  existsb (over_silence p) evs = true.
Proof.
  cbv zeta.
  assert (H : loop (call_params compiled_defaults "") init_state
                (six_silent_chunks ++ mixed_frames)
              = Waiting (mkState 80 20 280 DSP_TONE_STATE_RINGING
                           DSP_TONE_STATE_RINGING 1 "Silence"))
    by (vm_compute; reflexivity).
  split; [repeat split; exact H|].
  exact (proj2 (silence_sticks_and_is_earned _ _ _ _ H) eq_refl eq_refl).
Defined.

(** ** Verdicts are earned *)

Lemma class_label_inj (c c' : tone_class) :
  class_label c = class_label c' -> c = c'.
Proof. destruct c, c'; simpl; intros H; try reflexivity; discriminate. Qed.

Lemma tentative_not_label (s : state) (c : tone_class) :
  tentative s -> cpaStatus s <> class_label c.
Proof.
  intros [H|H]; rewrite H; destruct c; discriminate.
Qed.

(** A switch that stores the label of a class found the tone state of
    that class with a count equal to its threshold. *)
Lemma tone_switch_label (p : params) (s : state) (c : tone_class) :
  tentative s ->
  cpaStatus (tone_switch p s) = class_label c ->
  toneState s = class_state c /\ tcount s = class_threshold p c.
Proof.
  intros Hten. unfold tone_switch. cbv zeta.
  repeat case_if; simpl; intros H; to_Z;
    try (exfalso; exact (tentative_not_label s c Hten H));
    try (destruct c; discriminate H);
    destruct c; try discriminate H; split; assumption.
Qed.

(** X9: a tone verdict is earned. If the loop is left publishing the
    label of one of the five classes, then (apart from "Hungup" for a
    failed read) its last turn read an analysed frame within the time
    budget for which the DSP reported the tone state of that class, equal
    to the last tone, with a count equal to the threshold of the class. *)
Theorem verdict_is_earned
    (p : params) (evs : list event) (s : state) (c : tone_class) :
  loop p init_state evs = Exited s ->
  published s = class_label c ->
  exists evs1 e evs2 s0,
    evs = evs1 ++ e :: evs2 /\
    loop p init_state evs1 = Waiting s0 /\
    -1 < waitfor e /\
    ((c = HangupTone /\ readres e = ReadNull) \/
     (exists f d,
        readres e = ReadFrame f d /\
        analysed (frametype f) = true /\
        iTotalTime s0 + frame_ms p f < totalAnalysisTime p /\
        dsp_tstate d = class_state c /\
        lastTone s0 = class_state c /\
        dsp_tcount d = class_threshold p c)).
Proof.
  intros H Hp.
  destruct (loop_left_split _ _ _ _ H)
    as (evs1 & e & evs2 & s0 & Hevs & H1 & H2).
  pose proof (loop_waiting_tentative _ _ _ _ init_tentative H1) as Hten.
  exists evs1, e, evs2, s0. split; [exact Hevs|]. split; [exact H1|].
  rewrite loop_cons in H2.
  destruct (waitfor e >? -1) eqn:Hw; to_Z.
  - split; [exact Hw|].
    destruct (readres e) as [|f d] eqn:Hr.
    + simpl in H2. injection H2 as <-. left. split; [|reflexivity].
      unfold published, after_loop in Hp. simpl in Hp.
      destruct c; try discriminate Hp. reflexivity.
    + right. exists f, d. split; [reflexivity|].
      unfold loop_body in H2.
      destruct (analysed (frametype f)) eqn:Ha; [|discriminate].
      split; [reflexivity|]. cbv zeta in H2.
      destruct (_ >=? _) eqn:Hc.
      * injection H2 as <-. exfalso.
        unfold published, after_loop in Hp. simpl in Hp.
        destruct (waitfor e =? 0); simpl in Hp;
          destruct c; discriminate Hp.
      * to_Z. simpl in Hc. split; [exact Hc|].
        unfold track_tone in H2. cbv zeta in H2.
        destruct (_ =? _) eqn:E in H2; [|discriminate].
        destruct (res (tone_switch p _) =? 1) eqn:Hres; [|discriminate].
        injection H2 as <-. to_Z. simpl in E.
        unfold published, after_loop in Hp. rewrite Hres in Hp.
        simpl (1 =? 0) in Hp. cbv iota in Hp.
        apply tone_switch_label in Hp; [|exact Hten].
        simpl in Hp. destruct Hp as [Hp1 Hp2].
        repeat split; congruence.
  - exfalso. injection H2 as <-.
    unfold published, after_loop in Hp. simpl in Hp.
    replace (waitfor e =? 0) with false in Hp
      by (symmetry; apply Z.eqb_neq; lia).
    simpl in Hp. exact (tentative_not_label s0 c Hten Hp).
Qed.

Lemma verdict_is_earned_witness :
  let p := call_params compiled_defaults "" in
  let evs := chunks new_dsp 80 160 (repeat DSP_TONE_STATE_BUSY 4) in
  let s := mkState 1 20 80 DSP_TONE_STATE_BUSY DSP_TONE_STATE_BUSY 4 "Busy" in
  (loop p init_state evs = Exited s /\ published s = class_label Busy) /\
  exists evs1 e evs2 s0,
    evs = evs1 ++ e :: evs2 /\
    loop p init_state evs1 = Waiting s0 /\
    -1 < waitfor e /\
    ((Busy = HangupTone /\ readres e = ReadNull) \/
     (exists f d,
        readres e = ReadFrame f d /\
        analysed (frametype f) = true /\
        iTotalTime s0 + frame_ms p f < totalAnalysisTime p /\
        dsp_tstate d = class_state Busy /\
        lastTone s0 = class_state Busy /\
        dsp_tcount d = class_threshold p Busy)).
Proof.
  cbv zeta.
  assert (H : loop (call_params compiled_defaults "") init_state
                (chunks new_dsp 80 160 (repeat DSP_TONE_STATE_BUSY 4))
              = Exited (mkState 1 20 80 DSP_TONE_STATE_BUSY
                          DSP_TONE_STATE_BUSY 4 "Busy"))
    by (vm_compute; reflexivity).
  assert (Hp : published (mkState 1 20 80 DSP_TONE_STATE_BUSY
                            DSP_TONE_STATE_BUSY 4 "Busy")
               = class_label Busy) by reflexivity.
  split; [split; assumption|].
  exact (verdict_is_earned _ _ _ Busy H Hp).
Defined.

(** ** The wait per frame *)

(** X10: the wait per frame that [callProgress] works with is the smaller
    of the file-level default and the total analysis time in effect, so it
    never exceeds the total analysis time; a null or comfort-noise frame is
    charged twice that. *)
Theorem wait_is_clamped (g : globals) (data : string) :
  let p := call_params g data in
  maxWaitTimeForFrame p
    = Z.min (dfltMaxWaitTimeForFrame g) (totalAnalysisTime p) /\
  maxWaitTimeForFrame p <= totalAnalysisTime p /\
  (forall f, frametype f = AST_FRAME_NULL \/ frametype f = AST_FRAME_CNG ->
             frame_ms p f
             = 2 * Z.min (dfltMaxWaitTimeForFrame g) (totalAnalysisTime p)).
Proof.
  cbv zeta.
  assert (E : maxWaitTimeForFrame (call_params g data)
              = Z.min (dfltMaxWaitTimeForFrame g)
                      (totalAnalysisTime (call_params g data))).
  { unfold call_params. simpl.
    match goal with
    | |- (if ?a >? ?b then _ else _) = _ =>
        destruct (Z.gtb_spec a b); lia
    end. }
  split; [exact E|]. split; [lia|].
  intros f [Hf|Hf]; unfold frame_ms; rewrite Hf, E; reflexivity.
Qed.


(** * [load_config], [load_module] and [reload] *)

(** The variables of the [general] sections of a file, in file order. *)
Definition is_general (c : ast_category) : bool :=
  strcasecmp (cat_name c) "general" =? 0.

Definition general_vars (cats : list ast_category) : list ast_variable :=
  flat_map cat_vars (filter is_general cats).

(** The value of the last variable named [key] (without regard to case),
    if there is one. *)
Fixpoint last_value (key : string) (vars : list ast_variable)
    : option string :=
  match vars with
  | [] => None
  | v :: vars' =>
      match last_value key vars' with
      | Some x => Some x
      | None =>
          if strcasecmp (var_name v) key =? 0 then Some (var_value v)
          else None
      end
  end.

(** [enum ast_module_load_result] of [asterisk/module.h]. *)
Definition AST_MODULE_LOAD_SUCCESS : Z := 0.
Definition AST_MODULE_LOAD_DECLINE : Z := 1.

(** [load_module]: the value returned, the file-level variables after the
    call, and whether [ast_register_application_xml] was called;
    [register] is what that call returns when it is made. The [||] does
    not evaluate its right side when [load_config(0)] is not 0. *)
Definition load_module (g : globals) (dsp_silence : Z) (cfg : ast_config)
    (register : Z) : Z * globals * bool :=
  let (r, g') := load_config g dsp_silence cfg in
  if negb (r =? 0) then (AST_MODULE_LOAD_DECLINE, g', false)
  else if negb (register =? 0) then (AST_MODULE_LOAD_DECLINE, g', true)
  else (AST_MODULE_LOAD_SUCCESS, g', true).

(** [reload]: the value returned and the file-level variables after. *)
Definition reload (g : globals) (dsp_silence : Z) (cfg : ast_config)
    : Z * globals :=
  let (r, g') := load_config g dsp_silence cfg in
  if negb (r =? 0) then (AST_MODULE_LOAD_DECLINE, g')
  else (AST_MODULE_LOAD_SUCCESS, g').

Lemma browse_vars_app (vars1 vars2 : list ast_variable) :
  forall g,
    browse_vars g (vars1 ++ vars2) = browse_vars (browse_vars g vars1) vars2.
Proof.
  induction vars1 as [|v vars1 IH]; intros g; simpl.
  - reflexivity.
  - apply IH.
Qed.

Lemma browse_cats_vars (cats : list ast_category) :
  forall g, browse_cats g cats = browse_vars g (general_vars cats).
Proof.
  unfold general_vars.
  induction cats as [|c cats IH]; intros g; simpl.
  - reflexivity.
  - unfold is_general at 1.
    destruct (strcasecmp (cat_name c) "general" =? 0); simpl.
    + rewrite browse_vars_app. apply IH.
    + apply IH.
Qed.

(** A name cannot match both keys: the first letter would have to be an
    "s" and a "t" at once. *)
Lemma first_letter (c : ascii) (n k : string) (x : ascii) :
  strcasecmp (String c n) (String x k) = 0 -> tolower c = tolower x.
Proof.
  simpl. destruct (Ascii.eqb_spec (tolower c) (tolower x)) as [E|E].
  - intros _. exact E.
  - intros H. exfalso. apply E.
    assert (Hn : nat_of_ascii (tolower c) = nat_of_ascii (tolower x)) by lia.
    rewrite <- (ascii_nat_embedding (tolower c)),
            <- (ascii_nat_embedding (tolower x)), Hn.
    reflexivity.
Qed.

Lemma keys_disjoint (n : string) :
  strcasecmp n "silence_threshold" = 0 ->
  strcasecmp n "total_analysis_time" = 0 -> False.
Proof.
  destruct n as [|c n].
  - simpl. discriminate.
  - intros H1 H2.
    apply first_letter in H1. apply first_letter in H2.
    rewrite H1 in H2. discriminate.
Qed.

(** What the loop over the variables leaves in the file-level variables. *)
Lemma browse_vars_last (vars : list ast_variable) :
  forall g,
    browse_vars g vars =
    mkGlobals
      (dfltMaxWaitTimeForFrame g)
      (match last_value "silence_threshold" vars with
       | Some v => atoi v
       | None => dfltSilenceThreshold g
       end)
      (match last_value "total_analysis_time" vars with
       | Some v => atoi v
       | None => dfltTotalAnalysisTime g
       end).
Proof.
  induction vars as [|v vars IH]; intros g.
  - destruct g; reflexivity.
  - simpl browse_vars. rewrite IH. simpl last_value.
    destruct (last_value "silence_threshold" vars);
      destruct (last_value "total_analysis_time" vars);
      destruct (strcasecmp (var_name v) "silence_threshold" =? 0) eqn:E1;
      destruct (strcasecmp (var_name v) "total_analysis_time" =? 0) eqn:E2;
      try reflexivity;
      to_Z; exfalso; exact (keys_disjoint _ E1 E2).
Qed.

(** ** The layers of the two settings *)




(** X11: reading a file never fails on its content and the last setting
    wins. For every loaded file [load_config] returns 0; the silence
    default becomes the value of the last [silence_threshold] found in a
    section named general (names compared without regard to case), or the
    DSP's setting when there is none; the total analysis time becomes the
    value of the last [total_analysis_time], or keeps its value when there
    is none; other sections and other keys change nothing, and the default
    wait per frame is never touched. *)
Theorem config_last_setting_wins
    (g : globals) (dsp_silence : Z) (cats : list ast_category) :
  load_config g dsp_silence (CONFIG_LOADED cats) =
  (0,
   mkGlobals
     (dfltMaxWaitTimeForFrame g)
     (match last_value "silence_threshold" (general_vars cats) with
      | Some v => atoi v
      | None => dsp_silence
      end)
     (match last_value "total_analysis_time" (general_vars cats) with
      | Some v => atoi v
      | None => dfltTotalAnalysisTime g
      end)).
Proof.
  unfold load_config. rewrite browse_cats_vars, browse_vars_last.
  reflexivity.
Qed.

(** X12: reading the same file twice is the same as reading it once:
    [load_config] applied to its own result, with the same DSP setting and
    the same outcome of [ast_config_load], changes nothing more. *)
Theorem load_config_idempotent
    (g : globals) (dsp_silence : Z) (cfg : ast_config) :
  load_config (snd (load_config g dsp_silence cfg)) dsp_silence cfg
  = load_config g dsp_silence cfg.
Proof.
  destruct cfg as [| | |cats]; try reflexivity.
  rewrite !config_last_setting_wins. simpl snd.
  destruct (last_value "total_analysis_time" (general_vars cats));
    reflexivity.
Qed.

(** X13: a later call that reads no file (cpa.conf missing, invalid, or
    unchanged on a reload) forgets a configured silence threshold but
    keeps a configured total analysis time: the silence default becomes
    the DSP's setting of that moment. *)
Theorem reread_forgets_silence_only
    (g : globals) (d d' : Z) (cats : list ast_category) (cfg' : ast_config)
    (vs vt : string) :
  last_value "silence_threshold" (general_vars cats) = Some vs ->
  last_value "total_analysis_time" (general_vars cats) = Some vt ->
  (forall cats', cfg' <> CONFIG_LOADED cats') ->
  let g1 := snd (load_config g d (CONFIG_LOADED cats)) in
  dfltSilenceThreshold g1 = atoi vs /\
  dfltTotalAnalysisTime g1 = atoi vt /\
  snd (load_config g1 d' cfg')
  = mkGlobals (dfltMaxWaitTimeForFrame g) d' (atoi vt).
Proof.
  intros Hs Ht Hc. cbv zeta.
  rewrite config_last_setting_wins, Hs, Ht. simpl snd.
  split; [reflexivity|]. split; [reflexivity|].
  destruct cfg' as [| | |cats']; try reflexivity.
  exfalso. exact (Hc cats' eq_refl).
Qed.

Lemma reread_forgets_silence_only_witness :
  let cats := [mkCat "General"
                 [mkVar "silence_threshold" "150";
                  mkVar "Total_Analysis_Time" "2000"]] in
  let g1 := snd (load_config compiled_defaults 256 (CONFIG_LOADED cats)) in
  (last_value "silence_threshold" (general_vars cats) = Some "150" /\
   last_value "total_analysis_time" (general_vars cats) = Some "2000" /\
   (forall cats', CONFIG_STATUS_FILEUNCHANGED <> CONFIG_LOADED cats')) /\
  dfltSilenceThreshold g1 = 150 /\
  dfltTotalAnalysisTime g1 = 2000 /\
  snd (load_config g1 256 CONFIG_STATUS_FILEUNCHANGED)
  = mkGlobals 50 256 2000.
Proof.
  cbv zeta.
  assert (Hs : last_value "silence_threshold"
                 (general_vars
                    [mkCat "General"
                       [mkVar "silence_threshold" "150";
                        mkVar "Total_Analysis_Time" "2000"]])
               = Some "150") by reflexivity.
  assert (Ht : last_value "total_analysis_time"
                 (general_vars
                    [mkCat "General"
                       [mkVar "silence_threshold" "150";
                        mkVar "Total_Analysis_Time" "2000"]])
               = Some "2000") by reflexivity.
  assert (Hc : forall cats',
             CONFIG_STATUS_FILEUNCHANGED <> CONFIG_LOADED cats')
    by (intros cats'; discriminate).
  split; [repeat split; assumption|].
  exact (reread_forgets_silence_only compiled_defaults 256 256 _
           CONFIG_STATUS_FILEUNCHANGED "150" "2000" Hs Ht Hc).
Defined.

(** Whether [ast_config_load] gave [load_config] something to go on with:
    a loaded file, or the notice that the file is unchanged. *)
Definition config_usable (cfg : ast_config) : bool :=
  match cfg with
  | CONFIG_STATUS_FILEUNCHANGED | CONFIG_LOADED _ => true
  | CONFIG_NULL | CONFIG_STATUS_FILEINVALID => false
  end.

(** X14: the module loads exactly when cpa.conf could be used and the
    application could be registered, and declines otherwise; when cpa.conf
    is missing or invalid the registration is not even attempted. A
    reload succeeds exactly when cpa.conf could be used. Either way the
    file-level variables are those [load_config] leaves, also when the
    result is a decline. *)
Theorem module_loads_iff_config_usable
    (g : globals) (dsp_silence : Z) (cfg : ast_config) (register : Z) :
  load_module g dsp_silence cfg register =
    (if config_usable cfg && (register =? 0)
     then AST_MODULE_LOAD_SUCCESS else AST_MODULE_LOAD_DECLINE,
     snd (load_config g dsp_silence cfg),
     config_usable cfg) /\
  reload g dsp_silence cfg =
    (if config_usable cfg
     then AST_MODULE_LOAD_SUCCESS else AST_MODULE_LOAD_DECLINE,
     snd (load_config g dsp_silence cfg)).
Proof.
  destruct cfg as [| | |cats]; unfold load_module, reload.
  1-3: simpl; destruct (register =? 0); split; reflexivity.
  rewrite config_last_setting_wins. simpl.
  destruct (register =? 0); split; reflexivity.
Qed.


(** * [cpa2str] and [tone2str] *)

(** The [AST_CONTROL_*] values of [enum ast_control_frame_type] in
    [asterisk/frame.h] that [cpa2str] names. *)
Definition AST_CONTROL_HANGUP     : Z := 1.
Definition AST_CONTROL_RINGING    : Z := 3.
Definition AST_CONTROL_ANSWER     : Z := 4.
Definition AST_CONTROL_BUSY       : Z := 5.
Definition AST_CONTROL_CONGESTION : Z := 8.

(** [cpa2str]: the string copied into [cpaString]. *)
Definition cpa2str (cpa : Z) : string :=
  if cpa =? 0 then "Silence"
  else if cpa =? AST_CONTROL_HANGUP then "Hangup"
  else if cpa =? AST_CONTROL_RINGING then "Ringing"
  else if cpa =? AST_CONTROL_ANSWER then "Answer"
  else if cpa =? AST_CONTROL_BUSY then "Busy"
  else if cpa =? AST_CONTROL_CONGESTION then "Congestion"
  else if cpa =? -1 then "Negative One! Uh Oh!!!"
  else "Unknown".

(** [tone2str]: the string copied into [toneString]. *)
Definition tone2str (tone : Z) : string :=
  if tone =? DSP_TONE_STATE_SILENCE then "Silence"
  else if tone =? DSP_TONE_STATE_HUNGUP then "Hungup"
  else if tone =? DSP_TONE_STATE_RINGING then "Ringing"
  else if tone =? DSP_TONE_STATE_TALKING then "Talking"
  else if tone =? DSP_TONE_STATE_BUSY then "Busy"
  else if tone =? DSP_TONE_STATE_SPECIAL1 then "Special1"
  else if tone =? DSP_TONE_STATE_SPECIAL2 then "Special2"
  else if tone =? DSP_TONE_STATE_SPECIAL3 then "Special3"
  else if tone =? -1 then "Negative One! Uh Oh!!!"
  else "Unknown".

(** The codes each function has a [case] for. *)
Definition cpa_codes : list Z :=
  [0; AST_CONTROL_HANGUP; AST_CONTROL_RINGING; AST_CONTROL_ANSWER;
   AST_CONTROL_BUSY; AST_CONTROL_CONGESTION; -1].

Definition tone_codes : list Z :=
  [DSP_TONE_STATE_SILENCE; DSP_TONE_STATE_HUNGUP; DSP_TONE_STATE_RINGING;
   DSP_TONE_STATE_TALKING; DSP_TONE_STATE_BUSY; DSP_TONE_STATE_SPECIAL1;
   DSP_TONE_STATE_SPECIAL2; DSP_TONE_STATE_SPECIAL3; -1].

Ltac unfold_codes :=
  unfold AST_CONTROL_HANGUP, AST_CONTROL_RINGING, AST_CONTROL_ANSWER,
         AST_CONTROL_BUSY, AST_CONTROL_CONGESTION,
         DSP_TONE_STATE_SILENCE, DSP_TONE_STATE_HUNGUP,
         DSP_TONE_STATE_RINGING, DSP_TONE_STATE_TALKING,
         DSP_TONE_STATE_BUSY, DSP_TONE_STATE_SPECIAL1,
         DSP_TONE_STATE_SPECIAL2, DSP_TONE_STATE_SPECIAL3,
         DSP_TONE_STATE_DIALTONE in *.

(** X15: [tone2str] names each tone state it has a case for with a name
    of its own, and answers "Unknown" exactly for the other integers; the
    dial-tone state is among those. *)
Theorem tone2str_names :
  (forall t, tone2str t = "Unknown" <-> ~ In t tone_codes) /\
  (forall t1 t2, In t1 tone_codes -> tone2str t1 = tone2str t2 -> t1 = t2) /\
  tone2str DSP_TONE_STATE_DIALTONE = "Unknown".
Proof.
  split; [|split; [|reflexivity]].
  - intros t. unfold tone2str, tone_codes.
    repeat case_if; to_Z; unfold_codes; simpl;
      (split; [intros H; try discriminate H; lia | intros H; try reflexivity;
               exfalso; apply H; lia]).
  - intros t1 t2 Hin. unfold tone_codes in Hin. unfold tone2str.
    repeat case_if; to_Z; unfold_codes; simpl in Hin; intros H;
      try discriminate H; lia.
Qed.

(** X16: [cpa2str] names each control code it has a case for with a name
    of its own, and answers "Unknown" exactly for the other integers. *)
Theorem cpa2str_names :
  (forall c, cpa2str c = "Unknown" <-> ~ In c cpa_codes) /\
  (forall c1 c2, In c1 cpa_codes -> cpa2str c1 = cpa2str c2 -> c1 = c2).
Proof.
  split.
  - intros c. unfold cpa2str, cpa_codes.
    repeat case_if; to_Z; unfold_codes; simpl;
      (split; [intros H; try discriminate H; lia | intros H; try reflexivity;
               exfalso; apply H; lia]).
  - intros c1 c2 Hin. unfold cpa_codes in Hin. unfold cpa2str.
    repeat case_if; to_Z; unfold_codes; simpl in Hin; intros H;
      try discriminate H; lia.
Qed.

(** X17: where the switch of [callProgress] stores a status, it is the
    name [tone2str] gives the tone state, except for the third special
    tone, which [callProgress] reports as "Congestion" and [tone2str]
    calls "Special3". *)
Theorem switch_labels_follow_tone2str (p : params) (s : state) :
  cpaStatus (tone_switch p s) <> cpaStatus s ->
  cpaStatus (tone_switch p s) =
    (if toneState s =? DSP_TONE_STATE_SPECIAL3 then "Congestion"
     else tone2str (toneState s)) /\
  tone2str DSP_TONE_STATE_SPECIAL3 = "Special3".
Proof.
  intros H. split; [|reflexivity]. revert H.
  unfold tone_switch, tone2str. cbv zeta.
  repeat case_if; simpl; intros H; to_Z; unfold_codes;
    first [reflexivity | contradiction | lia].
Qed.

Lemma switch_labels_follow_tone2str_witness :
  let p := call_params compiled_defaults "" in
  let s := mkState 80 20 80 DSP_TONE_STATE_HUNGUP DSP_TONE_STATE_HUNGUP 60 "" in
  cpaStatus (tone_switch p s) <> cpaStatus s /\
  cpaStatus (tone_switch p s) = "Hungup" /\
  tone2str DSP_TONE_STATE_SPECIAL3 = "Special3".
Proof.
  cbv zeta.
  assert (H : cpaStatus (tone_switch (call_params compiled_defaults "")
                 (mkState 80 20 80 DSP_TONE_STATE_HUNGUP
                    DSP_TONE_STATE_HUNGUP 60 ""))
              <> cpaStatus (mkState 80 20 80 DSP_TONE_STATE_HUNGUP
                              DSP_TONE_STATE_HUNGUP 60 ""))
    by (vm_compute; discriminate).
  split; [exact H|].
  exact (switch_labels_follow_tone2str _ _ H).
Defined.

(** ** The 256-byte buffers *)

Lemma all_statuses_short (l : string) :
  In l all_statuses -> (String.length l < 256)%nat.
Proof.
  unfold all_statuses. simpl.
  intros H; repeat (destruct H as [<-|H]; [simpl; lia|]); contradiction.
Qed.

Lemma tentative_in_all (s : state) :
  tentative s -> In (cpaStatus s) all_statuses.
Proof. intros [-> | ->]; simpl; auto. Qed.

Lemma tone_labels_in_all (l : string) :
  In l tone_labels -> In l all_statuses.
Proof. unfold tone_labels, all_statuses. simpl. intuition. Qed.

Lemma exit_statuses (p : params) (s : state) :
  exit_kind p s ->
  In (cpaStatus s) all_statuses /\ In (published s) all_statuses.
Proof.
  intros Hk.
  assert (Hc : In (cpaStatus s) all_statuses).
  { destruct Hk as [_ Ht|_ Hin|_ Hu _|_ Ht].
    - apply tentative_in_all, Ht.
    - apply tone_labels_in_all, Hin.
    - rewrite Hu. simpl. intuition.
    - apply tentative_in_all, Ht. }
  split; [exact Hc|].
  unfold published, after_loop.
  destruct (res s =? 0); [simpl; intuition | exact Hc].
Qed.

(** X18: no status string overruns its buffer of 256 bytes. Whatever the
    code, [cpa2str] and [tone2str] copy fewer than 256 characters; and
    whatever the events, the string held in [cpaStatus], while the loop
    turns and when it is left, and the string published in the end are
    shorter than 256 characters. *)
Theorem statuses_fit_their_buffers :
  (forall c, (String.length (cpa2str c) < 256)%nat) /\
  (forall t, (String.length (tone2str t) < 256)%nat) /\
  (forall p evs s,
     loop p init_state evs = Waiting s \/ loop p init_state evs = Exited s ->
     (String.length (cpaStatus s) < 256)%nat /\
     (String.length (published s) < 256)%nat).
Proof.
  split; [|split].
  - intros c. unfold cpa2str. repeat case_if; simpl; lia.
  - intros t. unfold tone2str. repeat case_if; simpl; lia.
  - intros p evs s [H|H].
    + pose proof (loop_waiting_tentative _ _ _ _ init_tentative H) as Ht.
      split.
      * apply all_statuses_short, tentative_in_all, Ht.
      * unfold published, after_loop.
        destruct (res s =? 0); [simpl; lia|].
        apply all_statuses_short, tentative_in_all, Ht.
    + apply loop_exit_kind in H. apply exit_statuses in H.
      destruct H as [H1 H2].
      split; apply all_statuses_short; assumption.
Qed.

Lemma statuses_fit_their_buffers_witness :
  let p := call_params compiled_defaults "" in
  let s := mkState 0 100 1000 0 0 0 "Unknown" in
  (loop p init_state (repeat stall 10) = Waiting s \/
   loop p init_state (repeat stall 10) = Exited s) /\
  (String.length (cpaStatus s) < 256)%nat /\
  (String.length (published s) < 256)%nat.
Proof.
  cbv zeta.
  assert (H : loop (call_params compiled_defaults "") init_state
                (repeat stall 10)
              = Exited (mkState 0 100 1000 0 0 0 "Unknown"))
    by (vm_compute; reflexivity).
  split; [right; exact H|].
  exact (proj2 (proj2 statuses_fit_their_buffers) _ _ _ (or_intror H)).
Defined.


(** * More on single turns *)

(** The tone states the switch of [callProgress] has a [case] for. *)
Definition switch_states : list Z :=
  [DSP_TONE_STATE_RINGING; DSP_TONE_STATE_SILENCE; DSP_TONE_STATE_BUSY;
   DSP_TONE_STATE_TALKING; DSP_TONE_STATE_SPECIAL3; DSP_TONE_STATE_HUNGUP].

Lemma tone_switch_other (p : params) (s : state) :
  ~ In (toneState s) switch_states -> tone_switch p s = s.
Proof.
  unfold switch_states, tone_switch. cbv zeta. simpl. intros H.
  repeat case_if; to_Z; try reflexivity; exfalso; apply H; auto 10.
Qed.

(** X19: a tone state the switch has no case for (dial tone, the first
    two special tones, any other value) records nothing and issues no
    verdict, whatever its count: on an analysed frame within the time
    budget the turn leaves the status and [res] as they were, and the loop
    goes on unless the tone repeats and the wait had returned 1. *)
Theorem other_tones_are_ignored
    (p : params) (s : state) (f : ast_frame) (d : dsp_reading) :
  analysed (frametype f) = true ->
  iTotalTime s + frame_ms p f < totalAnalysisTime p ->
  ~ In (dsp_tstate d) switch_states ->
  exists s',
    (loop_body p s (ReadFrame f d) =
       if (dsp_tstate d =? lastTone s) && (res s =? 1)
       then Break s' else Continue s') /\
    cpaStatus s' = cpaStatus s /\
    res s' = res s /\
    lastTone s' = dsp_tstate d.
Proof.
  intros Ha Ht Hd.
  rewrite loop_body_tone by assumption.
  unfold track_tone. cbv zeta. simpl toneState. simpl lastTone.
  destruct (dsp_tstate d =? lastTone s) eqn:E.
  - rewrite tone_switch_other by exact Hd.
    simpl res. simpl andb. to_Z.
    eexists. split; [reflexivity|]. simpl. auto.
  - simpl andb. cbv iota.
    eexists. split; [reflexivity|]. simpl. auto.
Qed.

Lemma other_tones_are_ignored_witness :
  let p := call_params compiled_defaults "" in
  let s := mkState 80 20 60 DSP_TONE_STATE_DIALTONE DSP_TONE_STATE_DIALTONE
             3 "" in
  let f := mkFrame AST_FRAME_VOICE 160 in
  let d := mkReading DSP_TONE_STATE_DIALTONE 4 in
  (analysed (frametype f) = true /\
   iTotalTime s + frame_ms p f < totalAnalysisTime p /\
   ~ In (dsp_tstate d) switch_states) /\
  exists s',
    (loop_body p s (ReadFrame f d) =
       if (dsp_tstate d =? lastTone s) && (res s =? 1)
       then Break s' else Continue s') /\
    cpaStatus s' = cpaStatus s /\
    res s' = res s /\
    lastTone s' = dsp_tstate d.
Proof.
  cbv zeta.
  assert (Ha : analysed (frametype (mkFrame AST_FRAME_VOICE 160)) = true)
    by reflexivity.
  assert (Ht : iTotalTime (mkState 80 20 60 DSP_TONE_STATE_DIALTONE
                             DSP_TONE_STATE_DIALTONE 3 "")
               + frame_ms (call_params compiled_defaults "")
                   (mkFrame AST_FRAME_VOICE 160)
               < totalAnalysisTime (call_params compiled_defaults ""))
    by (vm_compute; reflexivity).
  assert (Hd : ~ In (dsp_tstate (mkReading DSP_TONE_STATE_DIALTONE 4))
                    switch_states).
  { unfold switch_states. unfold_codes. simpl. lia. }
  split; [repeat split; assumption|].
  exact (other_tones_are_ignored _ _ _ _ Ha Ht Hd).
Defined.

(** X20: silence is compared with "greater than". On a turn of a sampling
    session whose wait returned neither a failure nor 1, with an analysed
    frame within the time budget for which the DSP repeats silence, the
    loop goes on with the DSP's count as run counter, and the status is
    "Silence" afterwards exactly when the count is above the silence
    threshold or "Silence" was recorded before; a count equal to the
    threshold records nothing. This includes the very first frame, which
    counts as a repeat because the last tone starts out as silence. *)
Theorem silence_recorded_above_threshold
    (p : params) (evs : list event) (s0 : state) (e : event)
    (f : ast_frame) (d : dsp_reading) :
  loop p init_state evs = Waiting s0 ->
  -1 < waitfor e -> waitfor e <> 1 ->
  readres e = ReadFrame f d ->
  analysed (frametype f) = true ->
  iTotalTime s0 + frame_ms p f < totalAnalysisTime p ->
  dsp_tstate d = DSP_TONE_STATE_SILENCE ->
  lastTone s0 = DSP_TONE_STATE_SILENCE ->
  exists s',
    loop p init_state (evs ++ [e]) = Waiting s' /\
    tcount s' = dsp_tcount d /\
    (cpaStatus s' = "Silence" <->
     THRESH_SILENCE p < dsp_tcount d \/ cpaStatus s0 = "Silence").
Proof.
  intros Hpre Hw Hw1 Hr Ha Ht Hd Hl.
  pose proof (loop_waiting_tentative _ _ _ _ init_tentative Hpre) as Hten.
  destruct (silence_keeps_sampling p s0 (waitfor e) f d Hw1 Ha Ht Hd Hl)
    as (s' & Hb & Hc & Hs).
  exists s'. rewrite loop_app, Hpre, loop_cons, Hr.
  apply Z.gtb_lt in Hw. rewrite Hw, Hb.
  split; [reflexivity|]. split; [exact Hc|].
  rewrite Hs. destruct (dsp_tcount d >? THRESH_SILENCE p) eqn:E; to_Z.
  - split; auto.
  - split; [auto|]. intros [H|H]; [lia | exact H].
Qed.

Lemma silence_recorded_above_threshold_witness :
  let p := call_params compiled_defaults "" in
  let f := mkFrame AST_FRAME_VOICE 160 in
  let d := mkReading DSP_TONE_STATE_SILENCE 5 in
  let e := mkEvent 80 (ReadFrame f d) in
  (loop p init_state [] = Waiting init_state /\
   -1 < waitfor e /\ waitfor e <> 1 /\
   readres e = ReadFrame f d /\
   analysed (frametype f) = true /\
   iTotalTime init_state + frame_ms p f < totalAnalysisTime p /\
   dsp_tstate d = DSP_TONE_STATE_SILENCE /\
   lastTone init_state = DSP_TONE_STATE_SILENCE) /\
  exists s',
    loop p init_state ([] ++ [e]) = Waiting s' /\
    tcount s' = dsp_tcount d /\
    (cpaStatus s' = "Silence" <->
     THRESH_SILENCE p < dsp_tcount d \/ cpaStatus init_state = "Silence").
Proof.
  cbv zeta.
  split; [repeat split; vm_compute; congruence|].
  apply (silence_recorded_above_threshold
           (call_params compiled_defaults "") [] init_state
           (mkEvent 80 (ReadFrame (mkFrame AST_FRAME_VOICE 160)
                          (mkReading DSP_TONE_STATE_SILENCE 5)))
           (mkFrame AST_FRAME_VOICE 160)
           (mkReading DSP_TONE_STATE_SILENCE 5));
    vm_compute; congruence.
Defined.


(** * Instances *)

Lemma wait_is_clamped_witness :
  let p := call_params compiled_defaults ",30" in
  let f := mkFrame AST_FRAME_NULL 0 in
  (frametype f = AST_FRAME_NULL \/ frametype f = AST_FRAME_CNG) /\
  maxWaitTimeForFrame p = 30 /\
  frame_ms p f = 60.
Proof.
  cbv zeta.
  assert (Hf : frametype (mkFrame AST_FRAME_NULL 0) = AST_FRAME_NULL \/
               frametype (mkFrame AST_FRAME_NULL 0) = AST_FRAME_CNG)
    by (left; reflexivity).
  split; [exact Hf|].
  destruct (wait_is_clamped compiled_defaults ",30") as (H1 & _ & H3).
  split; [exact H1 | exact (H3 _ Hf)].
Defined.

Lemma tone2str_names_witness :
  (~ In DSP_TONE_STATE_DIALTONE tone_codes /\
   tone2str DSP_TONE_STATE_DIALTONE = "Unknown") /\
  (In DSP_TONE_STATE_SPECIAL3 tone_codes /\
   tone2str DSP_TONE_STATE_SPECIAL3 = tone2str 7 /\
   DSP_TONE_STATE_SPECIAL3 = 7).
Proof.
  destruct tone2str_names as (H1 & H2 & _).
  assert (Hn : ~ In DSP_TONE_STATE_DIALTONE tone_codes).
  { unfold tone_codes. unfold_codes. simpl. lia. }
  assert (Hi : In DSP_TONE_STATE_SPECIAL3 tone_codes).
  { unfold tone_codes. simpl. auto 10. }
  split.
  - split; [exact Hn | exact (proj2 (H1 _) Hn)].
  - split; [exact Hi|]. split; [reflexivity|].
    exact (H2 _ 7 Hi eq_refl).
Defined.

Lemma cpa2str_names_witness :
  (~ In 2 cpa_codes /\ cpa2str 2 = "Unknown") /\
  (In AST_CONTROL_CONGESTION cpa_codes /\
   cpa2str AST_CONTROL_CONGESTION = cpa2str 8 /\
   AST_CONTROL_CONGESTION = 8).
Proof.
  destruct cpa2str_names as (H1 & H2).
  assert (Hn : ~ In 2 cpa_codes).
  { unfold cpa_codes. unfold_codes. simpl. lia. }
  assert (Hi : In AST_CONTROL_CONGESTION cpa_codes).
  { unfold cpa_codes. simpl. auto 10. }
  split.
  - split; [exact Hn | exact (proj2 (H1 _) Hn)].
  - split; [exact Hi|]. split; [reflexivity|].
    exact (H2 _ 8 Hi eq_refl).
Defined.
